(** * Plan lifecycle and week resolution of the fitness backend

    A shallow embedding of [models/Plan.js], of the plan routes and of the
    logging routes (weight, workout, meals, steps) that stamp a week and a
    plan id on every new entry.

    Conventions of the embedding:
    - a JavaScript [Date] is its time value, an integer number of
      milliseconds ([Z]); [new Date()] is an explicit argument [now];
    - numbers stored in documents are integers ([Z]); [Math.floor (a / b)]
      for a positive [b] is [Z.div], which rounds towards minus infinity;
    - an [ObjectId] is a [nat]; a collection is the list of its documents
      in insertion order, and [findOne] returns the first match;
    - a field that may be [undefined] or [null] is an [option]. *)

From Stdlib Require Import ZArith List Bool Lia String Arith.
Import ListNotations.
Open Scope Z_scope.

(** ** JavaScript odds and ends shared by the routes *)

(** [v || d] for a numeric [v] read from a JSON body: [undefined] and [0]
    are falsy. *)
Definition js_or (v : option Z) (d : Z) : Z :=
  match v with
  | Some w => if w =? 0 then d else w
  | None => d
  end.

(** What a handler sends back.  [Json code data] is
    [res.status(code).json({ success: true, data })], [Failure code msg] is
    [res.status(code).json({ success: false, message })], and [NextError]
    is [next(error)], which the error middleware of the application turns
    into [err.status || 500]. *)
Inductive Error : Type :=
| ValidationError (message : string).

Inductive Response (A : Type) : Type :=
| Json (code : Z) (data : A)
| Failure (code : Z) (message : string)
| NextError (e : Error).

Arguments Json {A} code data.
Arguments Failure {A} code message.
Arguments NextError {A} e.

Definition status_code {A : Type} (r : Response A) : Z :=
  match r with
  | Json c _ => c
  | Failure c _ => c
  | NextError _ => 500
  end.

(** ** models/Plan.js *)

Module PlanModel.

Inductive Status : Type := active | paused | completed.

Definition status_eqb (a b : Status) : bool :=
  match a, b with
  | active, active | paused, paused | completed, completed => true
  | _, _ => false
  end.

(** [goals] sub-document, with the defaults of the schema. *)
Record Goals : Type := mkGoals {
  targetWeight : option Z;
  dailyStepsGoal : Z;
  weeklyWorkoutGoal : Z
}.

(** [dietPlan] sub-document: the meals, whose paths carry validators.  The
    numbers [totalCalories] and [macros] have defaults and no validator
    and are left out.  A string path is [None] when the body does not
    give it. *)
Record DietItem : Type := mkDietItem {
  di_name : option string;
  di_quantity : option string
}.

Record DietMeal : Type := mkDietMeal {
  dm_time : option string;
  dm_items : list DietItem
}.

Record DietPlan : Type := mkDietPlan {
  diet_meals : list DietMeal
}.

(** [dietPlan || {}] without meals. *)
Definition no_diet : DietPlan := mkDietPlan [].

(** [required: true] on a string path: it is there and not empty. *)
Definition given (v : option string) : bool :=
  match v with
  | Some t => negb (String.eqb t EmptyString)
  | None => false
  end.

(** The [enum] of [time] in the meals of a diet plan. *)
Definition diet_times : list string :=
  ["upon_wakeup"; "oil_for_cooking"; "pre_workout"; "breakfast"; "lunch";
   "snacks"; "dinner"]%string.

Definition diet_item_valid (i : DietItem) : bool :=
  given (di_name i) && given (di_quantity i).

Definition diet_meal_valid (m : DietMeal) : bool :=
  match dm_time m with
  | Some t => existsb (String.eqb t) diet_times
  | None => false
  end
  && forallb diet_item_valid (dm_items m).

(** The validators of the paths under [dietPlan]. *)
Definition dietPlan_valid (d : DietPlan) : bool :=
  forallb diet_meal_valid (diet_meals d).

(** A plan document. *)
Record Plan : Type := mkPlan {
  _id : nat;
  userId : nat;
  startDate : Z;
  numberOfWeeks : Z;
  currentWeek : Z;
  status : Status;
  pausedAt : option Z;
  pausedDays : Z;
  goals : Goals;
  dietPlan : DietPlan
}.

Definition set_status (s : Status) (p : Plan) : Plan :=
  mkPlan (_id p) (userId p) (startDate p) (numberOfWeeks p) (currentWeek p)
         s (pausedAt p) (pausedDays p) (goals p) (dietPlan p).

Definition set_pausedAt (t : option Z) (p : Plan) : Plan :=
  mkPlan (_id p) (userId p) (startDate p) (numberOfWeeks p) (currentWeek p)
         (status p) t (pausedDays p) (goals p) (dietPlan p).

Definition set_currentWeek (w : Z) (p : Plan) : Plan :=
  mkPlan (_id p) (userId p) (startDate p) (numberOfWeeks p) w
         (status p) (pausedAt p) (pausedDays p) (goals p) (dietPlan p).

Definition set_pausedDays (d : Z) (p : Plan) : Plan :=
  mkPlan (_id p) (userId p) (startDate p) (numberOfWeeks p) (currentWeek p)
         (status p) (pausedAt p) d (goals p) (dietPlan p).

Definition set_numberOfWeeks (n : Z) (p : Plan) : Plan :=
  mkPlan (_id p) (userId p) (startDate p) n (currentWeek p)
         (status p) (pausedAt p) (pausedDays p) (goals p) (dietPlan p).

Definition set_goals (g : Goals) (p : Plan) : Plan :=
  mkPlan (_id p) (userId p) (startDate p) (numberOfWeeks p) (currentWeek p)
         (status p) (pausedAt p) (pausedDays p) g (dietPlan p).

Definition set_dietPlan (d : DietPlan) (p : Plan) : Plan :=
  mkPlan (_id p) (userId p) (startDate p) (numberOfWeeks p) (currentWeek p)
         (status p) (pausedAt p) (pausedDays p) (goals p) d.

(** The local [week] of [calculateCurrentWeek], before the clamp. *)
Definition rawWeek (p : Plan) (now : Z) : Z :=
  let diffTime := now - startDate p - pausedDays p * 24 * 60 * 60 * 1000 in
  let diffDays := diffTime / (1000 * 60 * 60 * 24) in
  diffDays / 7 + 1.

(** [planSchema.methods.calculateCurrentWeek] *)
Definition calculateCurrentWeek (p : Plan) (now : Z) : Z :=
  match status p with
  | paused => currentWeek p
  | _ =>
      let diffTime := now - startDate p - pausedDays p * 24 * 60 * 60 * 1000 in
      let diffDays := diffTime / (1000 * 60 * 60 * 24) in
      let week := diffDays / 7 + 1 in
      Z.min (Z.max week 1) (numberOfWeeks p)
  end.

(** [planSchema.methods.isCompleted] *)
Definition isCompleted (p : Plan) (now : Z) : bool :=
  numberOfWeeks p <? calculateCurrentWeek p now.

End PlanModel.

(** ** routes/plan.js *)

Module PlanRoutes.
Import PlanModel.

(** [goals] as a request body carries it: every key may be absent. *)
Record GoalsBody : Type := mkGoalsBody {
  g_targetWeight : option Z;
  g_dailyStepsGoal : option Z;
  g_weeklyWorkoutGoal : option Z
}.

(** Body of [POST /api/plan].  [c_startDate] is the time value of
    [new Date(startDate)], [None] when that is an invalid date. *)
Record CreateBody : Type := mkCreateBody {
  c_startDate : option Z;
  c_numberOfWeeks : option Z;
  c_goals : option GoalsBody;
  c_dietPlan : option DietPlan
}.

(** Body of [PUT /api/plan/:id]. *)
Record UpdateBody : Type := mkUpdateBody {
  u_goals : option GoalsBody;
  u_numberOfWeeks : option Z;
  u_dietPlan : option DietPlan
}.

Definition orElse {A : Type} (o : option A) (d : A) : A :=
  match o with Some a => a | None => d end.

(** [goals || {}] run through the defaults of the schema. *)
Definition goals_of_body (g : option GoalsBody) : Goals :=
  match g with
  | Some b => mkGoals (g_targetWeight b)
                      (orElse (g_dailyStepsGoal b) 10000)
                      (orElse (g_weeklyWorkoutGoal b) 4)
  | None => mkGoals None 10000 4
  end.

(** [{ ...plan.goals, ...goals }] *)
Definition merge_goals (old : Goals) (b : GoalsBody) : Goals :=
  mkGoals (match g_targetWeight b with Some w => Some w | None => targetWeight old end)
          (orElse (g_dailyStepsGoal b) (dailyStepsGoal old))
          (orElse (g_weeklyWorkoutGoal b) (weeklyWorkoutGoal old)).

(** Query [{ userId, status: { $in: ['active', 'paused'] } }]. *)
Definition live (uid : nat) (p : Plan) : bool :=
  (userId p =? uid)%nat
  && (status_eqb (status p) active || status_eqb (status p) paused).

(** Query [{ userId, status }]. *)
Definition with_status (uid : nat) (s : Status) (p : Plan) : bool :=
  (userId p =? uid)%nat && status_eqb (status p) s.

(** Query [{ _id, userId }]. *)
Definition owned (id uid : nat) (p : Plan) : bool :=
  (_id p =? id)%nat && (userId p =? uid)%nat.

Definition findOne (q : Plan -> bool) (plans : list Plan) : option Plan :=
  find q plans.

(** A fresh [ObjectId]. *)
Definition fresh_id (plans : list Plan) : nat :=
  S (fold_right Nat.max 0%nat (map _id plans)).

(** [Plan.create]: validate, fill in the defaults, insert. *)
Definition Plan_create (plans : list Plan) (uid : nat) (b : CreateBody)
  : Error + Plan :=
  match c_startDate b with
  | None => inl (ValidationError "Start date is required")
  | Some start =>
      match c_numberOfWeeks b with
      | None => inl (ValidationError "Number of weeks is required")
      | Some n =>
          if n <? 1 then inl (ValidationError "Plan must be at least 1 week")
          else if 52 <? n then inl (ValidationError "Plan cannot exceed 52 weeks")
          else if negb (dietPlan_valid (orElse (c_dietPlan b) no_diet))
          then inl (ValidationError "Plan validation failed: dietPlan")
          else inr (mkPlan (fresh_id plans) uid start n 1 active None 0
                           (goals_of_body (c_goals b))
                           (orElse (c_dietPlan b) no_diet))
      end
  end.

(** [plan.save()]: the validators of the schema run, then the stored
    document with the same [_id] is replaced. *)
Definition replace_plan (p : Plan) (plans : list Plan) : list Plan :=
  map (fun q => if (_id q =? _id p)%nat then p else q) plans.

Definition save (p : Plan) (plans : list Plan) : Error + list Plan :=
  if numberOfWeeks p <? 1 then inl (ValidationError "Plan must be at least 1 week")
  else if 52 <? numberOfWeeks p then inl (ValidationError "Plan cannot exceed 52 weeks")
  else if negb (dietPlan_valid (dietPlan p))
  then inl (ValidationError "Plan validation failed: dietPlan")
  else inr (replace_plan p plans).

(** The data of a plan response:
    [{ ...plan.toObject(), currentWeek: plan.calculateCurrentWeek() }]. *)
Definition plan_view (p : Plan) (now : Z) : Plan :=
  set_currentWeek (calculateCurrentWeek p now) p.

(** [POST /api/plan] *)
Definition post_plan (plans : list Plan) (uid : nat) (b : CreateBody)
  : list Plan * Response Plan :=
  match findOne (live uid) plans with
  | Some _ =>
      (plans, Failure 400 "You already have an active or paused plan. Please complete or cancel it first.")
  | None =>
      match Plan_create plans uid b with
      | inl e => (plans, NextError e)
      | inr plan => (plans ++ [plan], Json 201 plan)
      end
  end.

(** [GET /api/plan] *)
Definition get_plan (plans : list Plan) (uid : nat) (now : Z)
  : list Plan * Response Plan :=
  match findOne (live uid) plans with
  | None => (plans, Failure 404 "No active plan found")
  | Some plan =>
      let currentWeek := calculateCurrentWeek plan now in
      if status_eqb (status plan) active && (numberOfWeeks plan <? currentWeek)
      then
        let plan' := set_status completed plan in
        match save plan' plans with
        | inl e => (plans, NextError e)
        | inr plans' => (plans', Json 200 (plan_view plan' now))
        end
      else (plans, Json 200 (plan_view plan now))
  end.

(** [PUT /api/plan/pause] *)
Definition put_pause (plans : list Plan) (uid : nat) (now : Z)
  : list Plan * Response Plan :=
  match findOne (with_status uid active) plans with
  | None => (plans, Failure 404 "No active plan to pause")
  | Some plan =>
      let plan1 := set_status paused plan in
      let plan2 := set_pausedAt (Some now) plan1 in
      let plan3 := set_currentWeek (calculateCurrentWeek plan2 now) plan2 in
      match save plan3 plans with
      | inl e => (plans, NextError e)
      | inr plans' => (plans', Json 200 plan3)
      end
  end.

(** [PUT /api/plan/resume].  In [now - plan.pausedAt] a [null] counts
    as [0]. *)
Definition put_resume (plans : list Plan) (uid : nat) (now : Z)
  : list Plan * Response Plan :=
  match findOne (with_status uid paused) plans with
  | None => (plans, Failure 404 "No paused plan to resume")
  | Some plan =>
      let pausedDays' := (now - orElse (pausedAt plan) 0) / (1000 * 60 * 60 * 24) in
      let plan1 := set_pausedDays (pausedDays plan + pausedDays') plan in
      let plan2 := set_status active plan1 in
      let plan3 := set_pausedAt None plan2 in
      match save plan3 plans with
      | inl e => (plans, NextError e)
      | inr plans' => (plans', Json 200 (plan_view plan3 now))
      end
  end.

(** [PUT /api/plan/:id] *)
Definition put_plan (plans : list Plan) (uid id : nat) (b : UpdateBody) (now : Z)
  : list Plan * Response Plan :=
  match findOne (owned id uid) plans with
  | None => (plans, Failure 404 "Plan not found")
  | Some plan =>
      let plan0 :=
        match u_dietPlan b with
        | Some d => set_dietPlan d plan
        | None => plan
        end in
      let plan1 :=
        match u_goals b with
        | Some g => set_goals (merge_goals (goals plan0) g) plan0
        | None => plan0
        end in
      let plan2 :=
        match u_numberOfWeeks b with
        | Some n =>
            if negb (n =? 0) && (calculateCurrentWeek plan1 now <=? n)
            then set_numberOfWeeks n plan1
            else plan1
        | None => plan1
        end in
      match save plan2 plans with
      | inl e => (plans, NextError e)
      | inr plans' => (plans', Json 200 (plan_view plan2 now))
      end
  end.

(** [findOneAndDelete]: the first match goes. *)
Fixpoint remove_first (q : Plan -> bool) (plans : list Plan) : list Plan :=
  match plans with
  | [] => []
  | p :: rest => if q p then rest else p :: remove_first q rest
  end.

(** [DELETE /api/plan/:id] *)
Definition delete_plan (plans : list Plan) (uid id : nat)
  : list Plan * Response unit :=
  match findOne (owned id uid) plans with
  | None => (plans, Failure 404 "Plan not found")
  | Some _ => (remove_first (owned id uid) plans, Json 200 tt)
  end.

(** One request against the plan collection. *)
Inductive step : list Plan -> list Plan -> Prop :=
| step_post uid b plans : step plans (fst (post_plan plans uid b))
| step_get uid now plans : step plans (fst (get_plan plans uid now))
| step_pause uid now plans : step plans (fst (put_pause plans uid now))
| step_resume uid now plans : step plans (fst (put_resume plans uid now))
| step_put uid id b now plans : step plans (fst (put_plan plans uid id b now))
| step_delete uid id plans : step plans (fst (delete_plan plans uid id)).

(** The collections the routes can produce from an empty one. *)
Inductive reachable : list Plan -> Prop :=
| reachable_empty : reachable []
| reachable_step plans plans' :
    reachable plans -> step plans plans' -> reachable plans'.

(** A plan that passes the validators [save] runs. *)
Definition storable (p : Plan) : Prop :=
  1 <= numberOfWeeks p <= 52 /\ dietPlan_valid (dietPlan p) = true.

(** What every stored plan satisfies: the stored week is the default of
    the schema and the document passed the validators. *)
Definition plan_ok (p : Plan) : Prop :=
  currentWeek p = 1 /\ storable p.

(** A body whose [dietPlan], when it has one, passes the validators. *)
Definition diet_ok (d : option DietPlan) : Prop :=
  dietPlan_valid (orElse d no_diet) = true.

(** The week computation as the specification words it. *)
Definition clamp (x lo hi : Z) : Z :=
  if x <? lo then lo else if hi <? x then hi else x.

Definition spec_currentWeek (p : Plan) (now : Z) : Z :=
  match status p with
  | paused => currentWeek p
  | _ =>
      let elapsedMs := now - startDate p - pausedDays p * 86400000 in
      let elapsedDays := elapsedMs / 86400000 in
      clamp (elapsedDays / 7 + 1) 1 (numberOfWeeks p)
  end.

End PlanRoutes.

(** ** routes/weight.js, routes/workout.js, routes/meals.js

    The three [POST /] handlers resolve the week and the plan in the same
    words.  The fields they only copy from the body (weight, unit, notes;
    name, exercises, duration, ...; mealType, items, notes), after the
    defaults the handler applies, are the [payload] of the document. *)

Module LogRoutes.
Import PlanModel PlanRoutes.

(** Helper [getCurrentWeek] of routes/weight.js. *)
Definition getCurrentWeek (plans : list Plan) (userId : nat) (now : Z) : Z :=
  match findOne (live userId) plans with
  | Some plan => calculateCurrentWeek plan now
  | None => 1
  end.

Record Entry (P : Type) : Type := mkEntry {
  e_id : nat;
  e_userId : nat;
  e_planId : option nat;
  e_date : Z;
  e_week : Z;
  e_payload : P
}.

Arguments mkEntry {P}.
Arguments e_id {P}.
Arguments e_userId {P}.
Arguments e_planId {P}.
Arguments e_date {P}.
Arguments e_week {P}.
Arguments e_payload {P}.

(** Request body: [date] (time value of [new Date(date)]), [week] and the
    copied fields. *)
Record EntryBody (P : Type) : Type := mkEntryBody {
  b_date : option Z;
  b_week : option Z;
  b_payload : P
}.

Arguments mkEntryBody {P}.
Arguments b_date {P}.
Arguments b_week {P}.
Arguments b_payload {P}.

Section Logging.

Variable P : Type.

(** The validators of the schema on the copied fields. *)
Variable payload_valid : P -> bool.

(** [!mealType || !items || items.length === 0] of [POST /api/meals]. *)
Variable meal_missing : P -> bool.

Definition fresh_entry_id (entries : list (Entry P)) : nat :=
  S (fold_right Nat.max 0%nat (map e_id entries)).

(** [Model.create]: [week] has [min: 1]; then the document is inserted. *)
Definition Entry_create (entries : list (Entry P)) (userId : nat)
    (planId : option nat) (payload : P) (date week : Z)
  : list (Entry P) * Response (Entry P) :=
  if week <? 1
  then (entries, NextError (ValidationError "week is less than minimum allowed value (1)"))
  else if negb (payload_valid payload)
  then (entries, NextError (ValidationError "validation failed"))
  else
    let doc := mkEntry (fresh_entry_id entries) userId planId date week payload in
    (entries ++ [doc], Json 201 doc).

(** [POST /api/weight] *)
Definition post_weight (plans : list Plan) (weights : list (Entry P))
    (uid : nat) (body : EntryBody P) (now : Z)
  : list (Entry P) * Response (Entry P) :=
  let plan := findOne (live uid) plans in
  let entryWeek :=
    js_or (b_week body)
          (match plan with Some p => calculateCurrentWeek p now | None => 1 end) in
  Entry_create weights uid (option_map _id plan) (b_payload body)
               (orElse (b_date body) now) entryWeek.

(** [POST /api/workout] *)
Definition post_workout (plans : list Plan) (workouts : list (Entry P))
    (uid : nat) (body : EntryBody P) (now : Z)
  : list (Entry P) * Response (Entry P) :=
  let plan := findOne (live uid) plans in
  let entryWeek :=
    js_or (b_week body)
          (match plan with Some p => calculateCurrentWeek p now | None => 1 end) in
  Entry_create workouts uid (option_map _id plan) (b_payload body)
               (orElse (b_date body) now) entryWeek.

(** [POST /api/meals] *)
Definition post_meal (plans : list Plan) (meals : list (Entry P))
    (uid : nat) (body : EntryBody P) (now : Z)
  : list (Entry P) * Response (Entry P) :=
  if meal_missing (b_payload body)
  then (meals, Failure 400 "Meal type and at least one item are required")
  else
    let plan := findOne (live uid) plans in
    let entryWeek :=
      js_or (b_week body)
            (match plan with Some p => calculateCurrentWeek p now | None => 1 end) in
    Entry_create meals uid (option_map _id plan) (b_payload body)
                 (orElse (b_date body) now) entryWeek.

End Logging.

(** Week resolution as a relation between the stored plans, the caller,
    the week the body supplies and the pair stamped on the new entry.  A
    supplied week other than 0 is stamped as it is; otherwise the week is
    [computed]. *)
Definition week_choice (supplied : option Z) (computed wk : Z) : Prop :=
  (forall w, supplied = Some w -> w <> 0 -> wk = w) /\
  (supplied = None \/ supplied = Some 0 -> wk = computed).

Definition resolved (plans : list Plan) (uid : nat) (supplied : option Z)
    (now : Z) (wk : Z) (pid : option nat) : Prop :=
  (exists p,
      In p plans /\ userId p = uid /\ (status p = active \/ status p = paused) /\
      pid = Some (_id p) /\
      week_choice supplied (calculateCurrentWeek p now) wk)
  \/
  ((forall p, In p plans -> userId p = uid -> status p = completed) /\
   pid = None /\
   week_choice supplied 1 wk).

(** The payload of the examples carries nothing. *)
Definition any_payload (_ : unit) : bool := true.
Definition never_missing (_ : unit) : bool := false.

End LogRoutes.

(** ** models/Steps.js and routes/steps.js *)

Module StepsRoutes.
Import PlanModel PlanRoutes.

Record Steps : Type := mkSteps {
  s_id : nat;
  s_userId : nat;
  s_planId : option nat;
  s_date : Z;
  s_week : Z;
  s_count : Z;
  s_goal : Z;
  s_distance : option Z;
  s_caloriesBurned : option Z
}.

(** Body of [POST /api/steps]. *)
Record StepsBody : Type := mkStepsBody {
  count : option Z;
  goal : option Z;
  distance : option Z;
  caloriesBurned : option Z;
  date : option Z;
  week : option Z
}.

(** The validators of [stepsSchema]: [count] is required and within
    [0, 100000], [week] is at least 1, [distance] and [caloriesBurned] are
    not negative.  The result is the validated [count]. *)
Definition nonneg (v : option Z) : bool :=
  match v with Some x => 0 <=? x | None => true end.

Definition validate (count : option Z) (week : Z)
    (distance caloriesBurned : option Z) : Error + Z :=
  match count with
  | None => inl (ValidationError "Step count is required")
  | Some c =>
      if c <? 0 then inl (ValidationError "Steps cannot be negative")
      else if 100000 <? c then inl (ValidationError "Steps cannot exceed 100,000")
      else if week <? 1 then inl (ValidationError "week is less than minimum allowed value (1)")
      else if negb (nonneg distance) then inl (ValidationError "distance is negative")
      else if negb (nonneg caloriesBurned) then inl (ValidationError "caloriesBurned is negative")
      else inr c
  end.

Definition replace_steps (e : Steps) (entries : list Steps) : list Steps :=
  map (fun q => if (s_id q =? s_id e)%nat then e else q) entries.

Definition fresh_steps_id (entries : list Steps) : nat :=
  S (fold_right Nat.max 0%nat (map s_id entries)).

Section Post.

(** [d.setHours(0, 0, 0, 0)]: midnight of the same day in the local time
    of the server. *)
Variable startOfDay : Z -> Z.

(** Query [{ userId, date }]. *)
Definition on_date (uid : nat) (d : Z) (e : Steps) : bool :=
  (s_userId e =? uid)%nat && (s_date e =? d).

(** [POST /api/steps] *)
Definition post_steps (plans : list Plan) (entries : list Steps)
    (uid : nat) (body : StepsBody) (now : Z)
  : list Steps * Response Steps :=
  let entryDate := startOfDay (orElse (date body) now) in
  let plan := findOne (live uid) plans in
  let entryWeek :=
    js_or (week body)
          (match plan with Some p => calculateCurrentWeek p now | None => 1 end) in
  let stepsGoal :=
    js_or (goal body)
          (js_or (option_map (fun p => dailyStepsGoal (goals p)) plan) 10000) in
  match find (on_date uid entryDate) entries with
  | Some stepsEntry =>
      let distance' :=
        match distance body with Some d => Some d | None => s_distance stepsEntry end in
      let calories' :=
        match caloriesBurned body with
        | Some c => Some c
        | None => s_caloriesBurned stepsEntry
        end in
      match validate (count body) (s_week stepsEntry) distance' calories' with
      | inl e => (entries, NextError e)
      | inr c =>
          let updated :=
            mkSteps (s_id stepsEntry) (s_userId stepsEntry) (s_planId stepsEntry)
                    (s_date stepsEntry) (s_week stepsEntry)
                    c stepsGoal distance' calories' in
          (replace_steps updated entries, Json 201 updated)
      end
  | None =>
      match validate (count body) entryWeek (distance body) (caloriesBurned body) with
      | inl e => (entries, NextError e)
      | inr c =>
          let created :=
            mkSteps (fresh_steps_id entries) uid (option_map _id plan)
                    entryDate entryWeek c stepsGoal
                    (distance body) (caloriesBurned body) in
          (entries ++ [created], Json 201 created)
      end
  end.

End Post.

(** Midnight UTC, the [startOfDay] of a server whose local time is UTC. *)
Definition utc_midnight (t : Z) : Z := t - t mod 86400000.

(** The field a body overwrites only when it supplies it. *)
Definition supplied_or_kept (supplied kept : option Z) : option Z :=
  match supplied with Some v => Some v | None => kept end.

(** An entry logged for 2024-01-03 in week 1 of plan 1. *)
Definition logged : Steps :=
  mkSteps 1 7 (Some 1%nat) 1704240000000 1 4000 10000 (Some 3) None.

End StepsRoutes.

(** ** Concrete requests used in the examples *)

Module Scenarios.
Import PlanModel PlanRoutes.

(** Midnight UTC of day [d] of January 2024. *)
Definition jan2024 (d : Z) : Z := 1704067200000 + (d - 1) * 86400000.

(** [n] days, in milliseconds. *)
Definition days (n : Z) : Z := n * 86400000.

Definition alice : nat := 7.

(** Four weeks from 2024-01-01, created that day, paused on 2024-01-10 and
    resumed on 2024-01-15. *)
Definition four_weeks : CreateBody :=
  mkCreateBody (Some (jan2024 1)) (Some 4) None None.

Definition created : list Plan := fst (post_plan [] alice four_weeks).
Definition during_pause : list Plan := fst (put_pause created alice (jan2024 10)).
Definition resumed : list Plan := fst (put_resume during_pause alice (jan2024 15)).

(** A diet plan that passes the validators, and one that does not
    ([brunch] is not a [time] of the enum). *)
Definition oats : DietPlan :=
  mkDietPlan [mkDietMeal (Some "breakfast"%string)
                         [mkDietItem (Some "Oats"%string) (Some "50g"%string)]].

Definition brunch : DietPlan :=
  mkDietPlan [mkDietMeal (Some "brunch"%string) []].

Definition four_weeks_with_diet : CreateBody :=
  mkCreateBody (Some (jan2024 1)) (Some 4) None (Some oats).

(** A collection whose only plan is [completed]. *)
Definition finished : list Plan :=
  [mkPlan 1 alice 0 2 1 completed None 0 (mkGoals None 10000 4) no_diet].

(** Two weeks from time 0, never paused. *)
Definition two_weeks : CreateBody := mkCreateBody (Some 0) (Some 2) None None.
Definition short_plan : list Plan := fst (post_plan [] alice two_weeks).

End Scenarios.

(** ** routes/plan.js, the routes that only read *)

Module PlanReads.
Import PlanModel PlanRoutes.

(** [GET /api/plan/:id] *)
Definition get_plan_by_id (plans : list Plan) (uid id : nat) (now : Z)
  : Response Plan :=
  match findOne (owned id uid) plans with
  | None => Failure 404 "Plan not found"
  | Some plan => Json 200 (plan_view plan now)
  end.

(** The integer fields of the data of [GET /api/plan/progress/summary].
    [progressPercentage] is a rounded floating-point quotient and
    [endDate] a calendar computation; both are left out, as are the
    copied [startDate] and [goals]. *)
Record Progress : Type := mkProgress {
  pr_currentWeek : Z;
  pr_totalWeeks : Z;
  pr_daysCompleted : Z;
  pr_totalDays : Z;
  pr_status : Status
}.

Section Summary.

(** [d.getDay()]: the day of the week, 0 (Sunday) to 6, in the local time
    of the server. *)
Variable getDay : Z -> Z.

(** [GET /api/plan/progress/summary] *)
Definition get_progress (plans : list Plan) (uid : nat) (now : Z)
  : Response Progress :=
  match findOne (live uid) plans with
  | None => Failure 404 "No active plan found"
  | Some plan =>
      let currentWeek := calculateCurrentWeek plan now in
      let totalDays := numberOfWeeks plan * 7 in
      let daysCompleted := (currentWeek - 1) * 7 + js_or (Some (getDay now)) 7 in
      Json 200 (mkProgress currentWeek (numberOfWeeks plan) daysCompleted
                           totalDays (status plan))
  end.

End Summary.

(** Day of the week of a time value in UTC; day 0 of the epoch was a
    Thursday. *)
Definition utc_day (t : Z) : Z := (t / 86400000 + 4) mod 7.

(** No two stored plans share an [_id]. *)
Definition unique_ids (plans : list Plan) : Prop :=
  NoDup (map _id plans).

(** Two plans of one user that are both [active] or [paused] are the same
    document. *)
Definition one_live (plans : list Plan) : Prop :=
  forall (a b : Plan) (uid : nat),
    In a plans -> In b plans ->
    live uid a = true -> live uid b = true -> _id a = _id b.

(** [pausedAt] is set exactly on paused plans, and no plan is
    [completed]. *)
Definition well_marked (p : Plan) : Prop :=
  match status p with
  | active => pausedAt p = None
  | paused => exists t, pausedAt p = Some t
  | completed => False
  end.

(** What the plan routes keep true of the collection. *)
Definition coherent (plans : list Plan) : Prop :=
  unique_ids plans /\ one_live plans /\ Forall well_marked plans.

(** The plan that [PUT /api/plan/:id] hands to [save]. *)
Definition updated (b : UpdateBody) (now : Z) (plan : Plan) : Plan :=
  let plan0 :=
    match u_dietPlan b with
    | Some d => set_dietPlan d plan
    | None => plan
    end in
  let plan1 :=
    match u_goals b with
    | Some g => set_goals (merge_goals (goals plan0) g) plan0
    | None => plan0
    end in
  match u_numberOfWeeks b with
  | Some n =>
      if negb (n =? 0) && (calculateCurrentWeek plan1 now <=? n)
      then set_numberOfWeeks n plan1
      else plan1
  | None => plan1
  end.

(** The plans that do not belong to [uid]. *)
Definition others (uid : nat) (plans : list Plan) : list Plan :=
  filter (fun p => negb (userId p =? uid)%nat) plans.

End PlanReads.

(** ** routes/steps.js, the other routes *)

Module StepsMore.
Import PlanModel PlanRoutes StepsRoutes.

(** Body of [PUT /api/steps/:id]; a key that is absent is [undefined]. *)
Record StepsUpdate : Type := mkStepsUpdate {
  up_count : option Z;
  up_goal : option Z;
  up_distance : option Z;
  up_caloriesBurned : option Z;
  up_week : option Z
}.

(** [runValidators: true]: the validators of the paths the update sets
    run before the query. *)
Definition validate_update (u : StepsUpdate) : option Error :=
  if match up_count u with Some c => c <? 0 | None => false end
  then Some (ValidationError "Steps cannot be negative")
  else if match up_count u with Some c => 100000 <? c | None => false end
  then Some (ValidationError "Steps cannot exceed 100,000")
  else if negb (nonneg (up_distance u))
  then Some (ValidationError "distance is negative")
  else if negb (nonneg (up_caloriesBurned u))
  then Some (ValidationError "caloriesBurned is negative")
  else if match up_week u with Some w => w <? 1 | None => false end
  then Some (ValidationError "week is less than minimum allowed value (1)")
  else None.

(** [updateFields] applied to a document. *)
Definition apply_update (u : StepsUpdate) (e : Steps) : Steps :=
  mkSteps (s_id e) (s_userId e) (s_planId e) (s_date e)
          (orElse (up_week u) (s_week e))
          (orElse (up_count u) (s_count e))
          (orElse (up_goal u) (s_goal e))
          (supplied_or_kept (up_distance u) (s_distance e))
          (supplied_or_kept (up_caloriesBurned u) (s_caloriesBurned e)).

(** Query [{ _id, userId }]. *)
Definition owned_steps (id uid : nat) (e : Steps) : bool :=
  (s_id e =? id)%nat && (s_userId e =? uid)%nat.

(** [findOneAndUpdate]: the first match is updated where it stands. *)
Fixpoint update_first (q : Steps -> bool) (f : Steps -> Steps)
    (entries : list Steps) : list Steps :=
  match entries with
  | [] => []
  | e :: rest => if q e then f e :: rest else e :: update_first q f rest
  end.

(** [findOneAndDelete] *)
Fixpoint delete_first (q : Steps -> bool) (entries : list Steps) : list Steps :=
  match entries with
  | [] => []
  | e :: rest => if q e then rest else e :: delete_first q rest
  end.

(** [PUT /api/steps/:id] *)
Definition put_steps (entries : list Steps) (uid id : nat) (u : StepsUpdate)
  : list Steps * Response Steps :=
  match validate_update u with
  | Some err => (entries, NextError err)
  | None =>
      match find (owned_steps id uid) entries with
      | None => (entries, Failure 404 "Steps entry not found")
      | Some e =>
          (update_first (owned_steps id uid) (apply_update u) entries,
           Json 200 (apply_update u e))
      end
  end.

(** [DELETE /api/steps/:id] *)
Definition delete_steps (entries : list Steps) (uid id : nat)
  : list Steps * Response unit :=
  match find (owned_steps id uid) entries with
  | None => (entries, Failure 404 "Steps entry not found")
  | Some _ => (delete_first (owned_steps id uid) entries, Json 200 tt)
  end.

(** Data of [GET /api/steps/today]: the entry of the day, or the
    placeholder [{ count: 0, goal, date: today }]. *)
Inductive Today : Type :=
| Logged (e : Steps)
| NotLogged (count goal date : Z).

Section Reads.

Variable startOfDay : Z -> Z.

(** [GET /api/steps/today] *)
Definition get_today (plans : list Plan) (entries : list Steps) (uid : nat)
    (now : Z) : Response Today :=
  let today := startOfDay now in
  let steps := find (on_date uid today) entries in
  let plan := findOne (live uid) plans in
  match steps with
  | Some e => Json 200 (Logged e)
  | None =>
      Json 200 (NotLogged 0
                  (js_or (option_map (fun p => dailyStepsGoal (goals p)) plan) 10000)
                  today)
  end.

(** [GET /api/steps/date/:date]; [d] is the time value of
    [new Date(req.params.date)]. *)
Definition get_by_date (entries : list Steps) (uid : nat) (d : Z)
  : Response (option Steps) :=
  Json 200 (find (on_date uid (startOfDay d)) entries).

End Reads.

(** The unique index [{ userId: 1, date: 1 }], and unique ids. *)
Definition day_key (e : Steps) : nat * Z := (s_userId e, s_date e).

Definition one_per_day (entries : list Steps) : Prop :=
  NoDup (map s_id entries) /\ NoDup (map day_key entries).

End StepsMore.

(** ** models/Workout.js and the exercise routes of routes/workout.js *)

Module WorkoutRoutes.
Import LogRoutes.

(** An element of [exercises]; [ex_weight] is [None] when it is [null]. *)
Record Exercise : Type := mkExercise {
  ex_id : nat;
  ex_name : string;
  ex_sets : Z;
  ex_reps : Z;
  ex_weight : option Z;
  ex_unit : string;
  ex_notes : option string
}.

(** The fields of a workout beside those of every entry. *)
Record WorkoutData : Type := mkWorkoutData {
  w_name : string;
  exercises : list Exercise;
  duration : option Z;
  caloriesBurned : option Z;
  w_notes : option string;
  completed : bool
}.

Definition Workout : Type := Entry WorkoutData.

Definition set_exercises (exs : list Exercise) (w : Workout) : Workout :=
  mkEntry (e_id w) (e_userId w) (e_planId w) (e_date w) (e_week w)
          (mkWorkoutData (w_name (e_payload w)) exs (duration (e_payload w))
                         (caloriesBurned (e_payload w)) (w_notes (e_payload w))
                         (completed (e_payload w))).

(** Virtual [totalVolume]. *)
Definition totalVolume (w : Workout) : Z :=
  fold_left (fun total ex => total + ex_sets ex * ex_reps ex * js_or (ex_weight ex) 0)
            (exercises (e_payload w)) 0.

(** Body of [POST /api/workout/:id/exercise]. *)
Record ExerciseBody : Type := mkExerciseBody {
  xb_name : option string;
  xb_sets : option Z;
  xb_reps : option Z;
  xb_weight : option Z;
  xb_unit : option string;
  xb_notes : option string
}.

Definition short_enough (limit : nat) (notes : option string) : bool :=
  match notes with
  | Some t => (String.length t <=? limit)%nat
  | None => true
  end.

(** The validators of [exerciseSchema]. *)
Definition exercise_valid (ex : Exercise) : bool :=
  negb (String.eqb (ex_name ex) EmptyString)
  && (1 <=? ex_sets ex) && (1 <=? ex_reps ex)
  && (String.eqb (ex_unit ex) "kg"%string || String.eqb (ex_unit ex) "lbs"%string)
  && short_enough 200 (ex_notes ex).

(** The validators of [workoutSchema]. *)
Definition workout_valid (w : Workout) : bool :=
  (1 <=? e_week w)
  && forallb exercise_valid (exercises (e_payload w))
  && StepsRoutes.nonneg (duration (e_payload w))
  && StepsRoutes.nonneg (caloriesBurned (e_payload w))
  && short_enough 1000 (w_notes (e_payload w)).

(** Query [{ _id, userId }]. *)
Definition owned_entry {P : Type} (id uid : nat) (e : Entry P) : bool :=
  (e_id e =? id)%nat && (e_userId e =? uid)%nat.

(** [doc.save()] once the validators passed. *)
Definition replace_entry {P : Type} (e : Entry P) (entries : list (Entry P))
  : list (Entry P) :=
  map (fun q => if (e_id q =? e_id e)%nat then e else q) entries.

(** A fresh [ObjectId] for a sub-document. *)
Definition fresh_exercise_id (workouts : list Workout) : nat :=
  S (fold_right Nat.max 0%nat
       (map ex_id (flat_map (fun w => exercises (e_payload w)) workouts))).

Section Exercises.

(** The [trim] setter of the schema. *)
Variable trim : string -> string.

(** The pushed object cast to a sub-document: required paths, defaults. *)
Definition new_exercise (id : nat) (b : ExerciseBody) : option Exercise :=
  match xb_name b, xb_sets b, xb_reps b with
  | Some name, Some sets, Some reps =>
      Some (mkExercise id (trim name) sets reps
                       (Some (PlanRoutes.orElse (xb_weight b) 0))
                       (PlanRoutes.orElse (xb_unit b) "kg"%string)
                       (xb_notes b))
  | _, _, _ => None
  end.

(** [POST /api/workout/:id/exercise] *)
Definition post_exercise (workouts : list Workout) (uid id : nat) (b : ExerciseBody)
  : list Workout * Response Workout :=
  match find (owned_entry id uid) workouts with
  | None => (workouts, Failure 404 "Workout not found")
  | Some workout =>
      match new_exercise (fresh_exercise_id workouts) b with
      | None => (workouts, NextError (ValidationError "Path is required"))
      | Some ex =>
          let workout' :=
            set_exercises (exercises (e_payload workout) ++ [ex]) workout in
          if workout_valid workout'
          then (replace_entry workout' workouts, Json 200 workout')
          else (workouts, NextError (ValidationError "Workout validation failed"))
      end
  end.

End Exercises.

(** [DELETE /api/workout/:id/exercise/:exerciseId] *)
Definition delete_exercise (workouts : list Workout) (uid id exerciseId : nat)
  : list Workout * Response Workout :=
  match find (owned_entry id uid) workouts with
  | None => (workouts, Failure 404 "Workout not found")
  | Some workout =>
      let workout' :=
        set_exercises
          (filter (fun ex => negb (ex_id ex =? exerciseId)%nat)
                  (exercises (e_payload workout)))
          workout in
      if workout_valid workout'
      then (replace_entry workout' workouts, Json 200 workout')
      else (workouts, NextError (ValidationError "Workout validation failed"))
  end.

(** A workout of the examples: two sets of squats. *)
Definition leg_day : Workout :=
  mkEntry 1 7 (Some 1%nat) 1704240000000 1
          (mkWorkoutData "Legs"%string [mkExercise 1 "Squat"%string 2 10 (Some 60) "kg"%string None]
                         (Some 45) None None true).

Definition no_trim (t : string) : string := t.

End WorkoutRoutes.

(** ** models/Meal.js and [GET /api/meals/date/:date] *)

Module MealRoutes.
Import LogRoutes.

(** An element of [items]; a nutrient is [None] when it is missing. *)
Record MealItem : Type := mkMealItem {
  it_id : nat;
  it_name : string;
  it_quantity : string;
  it_calories : option Z;
  it_protein : option Z;
  it_carbs : option Z;
  it_fats : option Z
}.

Record MealData : Type := mkMealData {
  mealType : string;
  items : list MealItem;
  m_notes : option string
}.

Definition Meal : Type := Entry MealData.

(** Virtual [totalCalories]. *)
Definition totalCalories (m : Meal) : Z :=
  fold_left (fun sum item => sum + js_or (it_calories item) 0)
            (items (e_payload m)) 0.

Record Macros : Type := mkMacros { protein : Z; carbs : Z; fats : Z }.

(** Virtual [totalMacros]. *)
Definition totalMacros (m : Meal) : Macros :=
  fold_left (fun totals item =>
               mkMacros (protein totals + js_or (it_protein item) 0)
                        (carbs totals + js_or (it_carbs item) 0)
                        (fats totals + js_or (it_fats item) 0))
            (items (e_payload m)) (mkMacros 0 0 0).

Record Totals : Type := mkTotals {
  t_calories : Z;
  t_protein : Z;
  t_carbs : Z;
  t_fats : Z
}.

(** The body of [meal.items.forEach] in the reducer of the daily
    totals. *)
Definition add_item (totals : Totals) (item : MealItem) : Totals :=
  mkTotals (t_calories totals + js_or (it_calories item) 0)
           (t_protein totals + js_or (it_protein item) 0)
           (t_carbs totals + js_or (it_carbs item) 0)
           (t_fats totals + js_or (it_fats item) 0).

Definition dailyTotals (meals : list Meal) : Totals :=
  fold_left (fun totals meal => fold_left add_item (items (e_payload meal)) totals)
            meals (mkTotals 0 0 0 0).

(** [mealsByType]: an object from meal type to the array of its meals,
    its keys in the order they were first set. *)
Fixpoint group_push (t : string) (m : Meal) (groups : list (string * list Meal))
  : list (string * list Meal) :=
  match groups with
  | [] => [(t, [m])]
  | (k, ms) :: rest =>
      if String.eqb k t then (k, ms ++ [m]) :: rest
      else (k, ms) :: group_push t m rest
  end.

Definition mealsByType (meals : list Meal) : list (string * list Meal) :=
  fold_left (fun groups meal => group_push (mealType (e_payload meal)) meal groups)
            meals [].

(** [mealsByType[t]] *)
Fixpoint lookup_type (t : string) (groups : list (string * list Meal))
  : option (list Meal) :=
  match groups with
  | [] => None
  | (k, ms) :: rest => if String.eqb k t then Some ms else lookup_type t rest
  end.

Record DayOfMeals : Type := mkDayOfMeals {
  d_meals : list Meal;
  d_mealsByType : list (string * list Meal);
  d_dailyTotals : Totals
}.

Section ByDate.

(** [d.setHours(0, 0, 0, 0)] and, on the result,
    [d.setHours(23, 59, 59, 999)]. *)
Variable startOfDay : Z -> Z.
Variable endOfDay : Z -> Z.

(** Query [{ userId, date: { $gte: startOfDay, $lte: endOfDay } }]. *)
Definition on_day (uid : nat) (d : Z) (m : Meal) : bool :=
  (e_userId m =? uid)%nat
  && (startOfDay d <=? e_date m) && (e_date m <=? endOfDay (startOfDay d)).

(** [GET /api/meals/date/:date]; the meals come in the order they were
    created ([mealTypeLabels], a constant, is left out). *)
Definition get_meals_by_date (meals : list Meal) (uid : nat) (d : Z)
  : Response DayOfMeals :=
  let found := filter (on_day uid d) meals in
  Json 200 (mkDayOfMeals found (mealsByType found) (dailyTotals found)).

End ByDate.

(** The meals of a type, in the order of the list. *)
Definition of_type (t : string) (meals : list Meal) : list Meal :=
  filter (fun m => String.eqb (mealType (e_payload m)) t) meals.

(** Sum of a list of numbers. *)
Definition sum (l : list Z) : Z := fold_right Z.add 0 l.

(** A group after more meals were pushed on it; no group is made for no
    meal. *)
Definition grown (o : option (list Meal)) (l : list Meal) : option (list Meal) :=
  match o, l with
  | None, [] => None
  | _, _ => Some (PlanRoutes.orElse o [] ++ l)
  end.

Definition non_empty (l : list Meal) : option (list Meal) :=
  match l with [] => None | _ => Some l end.

End MealRoutes.

(** ** routes/analytics.js, the streak of [GET /api/analytics/overview] *)

Module AnalyticsRoutes.
Import StepsRoutes.

Section Streak.

(** [d.setHours(0, 0, 0, 0)] and [d.setDate(d.getDate() - 1)] on a
    midnight, in the local time of the server. *)
Variable startOfDay : Z -> Z.
Variable prevDay : Z -> Z.

(** The [for ... of recentActivity] loop, from the state
    [(streak, checkDate)]; [break] ends it. *)
Fixpoint streak_loop (recentActivity : list Steps) (streak checkDate : Z) : Z :=
  match recentActivity with
  | [] => streak
  | entry :: rest =>
      let entryDate := startOfDay (s_date entry) in
      if (entryDate =? checkDate) && (0 <? s_count entry)
      then streak_loop rest (streak + 1) (prevDay checkDate)
      else if entryDate <? checkDate then streak
      else streak_loop rest streak checkDate
  end.

(** [streak], for the entries the query handed over and the clock. *)
Definition streak_of (recentActivity : list Steps) (now : Z) : Z :=
  streak_loop recentActivity 0 (startOfDay now).

(** [n] days before the midnight [d]. *)
Fixpoint days_back (n : nat) (d : Z) : Z :=
  match n with
  | O => d
  | S k => days_back k (prevDay d)
  end.

(** The entries log the [n] days that end with the midnight [d], one
    entry a day with a positive count, the latest first. *)
Fixpoint logged_run (n : nat) (d : Z) (entries : list Steps) : Prop :=
  match n, entries with
  | O, [] => True
  | S k, e :: rest =>
      startOfDay (s_date e) = d /\ 0 < s_count e /\ logged_run k (prevDay d) rest
  | _, _ => False
  end.

End Streak.

End AnalyticsRoutes.

(** Split a conjunction into its parts and evaluate each. *)
Ltac conjs := repeat match goal with |- _ /\ _ => split end.
Ltac evaluate := conjs; vm_compute; try reflexivity; try discriminate.

(** * Properties of the plan model *)

Module PlanFacts.
Import PlanModel PlanRoutes Scenarios.

Lemma day_ms : 1000 * 60 * 60 * 24 = 86400000.
Proof. reflexivity. Qed.

Lemma calculateCurrentWeek_paused (p : Plan) (now : Z) :
  status p = paused -> calculateCurrentWeek p now = currentWeek p.
Proof. intros H; unfold calculateCurrentWeek; now rewrite H. Qed.

Lemma calculateCurrentWeek_running (p : Plan) (now : Z) :
  status p <> paused ->
  calculateCurrentWeek p now = Z.min (Z.max (rawWeek p now) 1) (numberOfWeeks p).
Proof.
  intros H; unfold calculateCurrentWeek, rawWeek.
  destruct (status p); [reflexivity | contradiction | reflexivity].
Qed.

Lemma rawWeek_monotone (p : Plan) (t1 t2 : Z) :
  t1 <= t2 -> rawWeek p t1 <= rawWeek p t2.
Proof.
  intros Hle; unfold rawWeek; cbv zeta.
  apply Z.add_le_mono_r.
  apply Z.div_le_mono; [lia|].
  apply Z.div_le_mono; lia.
Qed.

Lemma clamp_min_max (x n : Z) :
  1 <= n -> Z.min (Z.max x 1) n = clamp x 1 n.
Proof.
  intros Hn; unfold clamp.
  destruct (x <? 1) eqn:E1; [apply Z.ltb_lt in E1; lia|].
  apply Z.ltb_ge in E1.
  destruct (n <? x) eqn:E2; [apply Z.ltb_lt in E2 | apply Z.ltb_ge in E2]; lia.
Qed.

(** The clamp never lets a running plan exceed its length, so
    [isCompleted] cannot hold for it. *)
Lemma isCompleted_running_false (p : Plan) (now : Z) :
  status p <> paused -> isCompleted p now = false.
Proof.
  intros H; unfold isCompleted.
  rewrite (calculateCurrentWeek_running p now H).
  apply Z.ltb_ge; lia.
Qed.

(** C1, at the scenario of the specification: a two-week plan without
    pauses, read 20 days after its start.  The week before the clamp is 3
    and the clamped week is 2, but [isCompleted] answers [false] and
    [GET /api/plan] leaves the plan [active] and the collection as it
    was: both compare the clamped week with [numberOfWeeks]. *)
Theorem isCompleted_misses_overrun :
  exists p,
    short_plan = [p] /\ status p = active /\ numberOfWeeks p = 2 /\
    rawWeek p (days 20) = 3 /\
    calculateCurrentWeek p (days 20) = 2 /\
    isCompleted p (days 20) = false /\
    get_plan short_plan alice (days 20) = (short_plan, Json 200 (plan_view p (days 20))) /\
    status (plan_view p (days 20)) = active.
Proof.
  exists (mkPlan 1 alice 0 2 1 active None 0 (mkGoals None 10000 4) no_diet).
  evaluate.
Qed.

(** C2: [calculateCurrentWeek] is the function of the stored plan and of
    the clock that the specification gives (the stored [currentWeek] when
    paused, the clamped week count otherwise), for every plan whose length
    is at least one week; and in the scenario of the specification (start
    on 2024-01-01, four weeks, paused on 2024-01-10, resumed on
    2024-01-15) the plan has [pausedDays = 5] and, on 2024-01-22, 16
    elapsed days and week 3. *)
Theorem calculateCurrentWeek_spec :
  (forall (p : Plan) (now : Z),
      1 <= numberOfWeeks p ->
      calculateCurrentWeek p now = spec_currentWeek p now) /\
  (exists p0, created = [p0] /\ calculateCurrentWeek p0 (jan2024 8) = 2) /\
  (exists p,
      resumed = [p] /\ status p = active /\ pausedDays p = 5 /\
      (jan2024 22 - startDate p - pausedDays p * 86400000) / 86400000 = 16 /\
      calculateCurrentWeek p (jan2024 22) = 3).
Proof.
  split; [|split].
  - intros p now Hn.
    unfold calculateCurrentWeek, spec_currentWeek.
    destruct (status p); cbv zeta; try reflexivity;
      rewrite <- (clamp_min_max _ _ Hn);
      replace (pausedDays p * 24 * 60 * 60 * 1000) with (pausedDays p * 86400000) by lia;
      rewrite day_ms; reflexivity.
  - exists (mkPlan 1 alice (jan2024 1) 4 1 active None 0 (mkGoals None 10000 4) no_diet).
    evaluate.
  - exists (mkPlan 1 alice (jan2024 1) 4 1 active None 5 (mkGoals None 10000 4) no_diet).
    evaluate.
Qed.

Lemma calculateCurrentWeek_spec_witness :
  1 <= numberOfWeeks (mkPlan 1 alice 0 4 1 active None 0 (mkGoals None 10000 4) no_diet) /\
  calculateCurrentWeek (mkPlan 1 alice 0 4 1 active None 0 (mkGoals None 10000 4) no_diet) (days 9)
  = spec_currentWeek (mkPlan 1 alice 0 4 1 active None 0 (mkGoals None 10000 4) no_diet) (days 9).
Proof.
  split.
  - vm_compute; discriminate.
  - apply (proj1 calculateCurrentWeek_spec); vm_compute; discriminate.
Defined.

(** C4: for a fixed stored plan, the computed week does not decrease when
    the clock advances while the plan is [active], and does not depend on
    the clock while the plan is [paused]. *)
Theorem calculateCurrentWeek_monotone (p : Plan) (t1 t2 : Z) :
  t1 <= t2 ->
  (status p = active -> calculateCurrentWeek p t1 <= calculateCurrentWeek p t2) /\
  (status p = paused -> calculateCurrentWeek p t1 = calculateCurrentWeek p t2).
Proof.
  intros Hle; split; intros Hs.
  - assert (Hr : status p <> paused) by (rewrite Hs; discriminate).
    rewrite !calculateCurrentWeek_running by exact Hr.
    pose proof (rawWeek_monotone p t1 t2 Hle). lia.
  - now rewrite !calculateCurrentWeek_paused.
Qed.

Lemma calculateCurrentWeek_monotone_witness :
  days 6 <= days 8 /\
  calculateCurrentWeek (mkPlan 1 alice 0 4 1 active None 0 (mkGoals None 10000 4) no_diet) (days 6)
  <= calculateCurrentWeek (mkPlan 1 alice 0 4 1 active None 0 (mkGoals None 10000 4) no_diet) (days 8).
Proof.
  split.
  - vm_compute; discriminate.
  - apply (calculateCurrentWeek_monotone _ (days 6) (days 8)).
    + vm_compute; discriminate.
    + reflexivity.
Defined.

(** *** Stored plans stay well formed *)

Lemma findOne_Some (q : Plan -> bool) (plans : list Plan) (p : Plan) :
  findOne q plans = Some p -> In p plans /\ q p = true.
Proof. apply find_some. Qed.

Lemma findOne_None (q : Plan -> bool) (plans : list Plan) :
  findOne q plans = None -> forall p, In p plans -> q p = false.
Proof. apply find_none. Qed.

Lemma replace_plan_Forall (Q : Plan -> Prop) (p : Plan) (plans : list Plan) :
  Q p -> Forall Q plans -> Forall Q (replace_plan p plans).
Proof.
  intros Hp Hall; unfold replace_plan.
  induction Hall as [|q rest Hq _ IH]; simpl; constructor; auto.
  destruct (_id q =? _id p)%nat; assumption.
Qed.

Lemma remove_first_Forall (Q : Plan -> Prop) (q : Plan -> bool) (plans : list Plan) :
  Forall Q plans -> Forall Q (remove_first q plans).
Proof.
  induction 1 as [|p rest Hp Hrest IH]; simpl; [constructor|].
  destruct (q p); [assumption | constructor; assumption].
Qed.

Lemma save_inr (p : Plan) (plans plans' : list Plan) :
  save p plans = inr plans' ->
  storable p /\ plans' = replace_plan p plans.
Proof.
  unfold save, storable.
  destruct (numberOfWeeks p <? 1) eqn:E1; [discriminate|].
  destruct (52 <? numberOfWeeks p) eqn:E2; [discriminate|].
  destruct (dietPlan_valid (dietPlan p)) eqn:E3; [|discriminate].
  apply Z.ltb_ge in E1; apply Z.ltb_ge in E2.
  intros H; injection H as <-. split; [split; [lia | reflexivity] | reflexivity].
Qed.

Lemma save_valid (p : Plan) (plans : list Plan) :
  storable p -> save p plans = inr (replace_plan p plans).
Proof.
  intros [[H1 H2] Hd]; unfold save.
  destruct (numberOfWeeks p <? 1) eqn:E1; [apply Z.ltb_lt in E1; lia|].
  destruct (52 <? numberOfWeeks p) eqn:E2; [apply Z.ltb_lt in E2; lia|].
  now rewrite Hd.
Qed.

Lemma save_too_long (p : Plan) (plans : list Plan) :
  52 < numberOfWeeks p ->
  save p plans = inl (ValidationError "Plan cannot exceed 52 weeks").
Proof.
  intros H; unfold save.
  destruct (numberOfWeeks p <? 1) eqn:E1; [apply Z.ltb_lt in E1; lia|].
  destruct (52 <? numberOfWeeks p) eqn:E2; [reflexivity | apply Z.ltb_ge in E2; lia].
Qed.

(** A save either fails and leaves the collection alone, or replaces the
    document by one that passed the validators. *)
Lemma save_preserves_ok (p : Plan) (plans : list Plan) (r : Response Plan) :
  currentWeek p = 1 ->
  Forall plan_ok plans ->
  Forall plan_ok
    (fst (match save p plans with
          | inl e => (plans, NextError e)
          | inr plans' => (plans', r)
          end)).
Proof.
  intros Hw Hall.
  destruct (save p plans) as [e|plans'] eqn:E; simpl; [assumption|].
  apply save_inr in E as [Hn ->].
  apply replace_plan_Forall; [split; assumption | assumption].
Qed.

Lemma Plan_create_inr (plans : list Plan) (uid : nat) (b : CreateBody) (p : Plan) :
  Plan_create plans uid b = inr p ->
  exists start n,
    c_startDate b = Some start /\ c_numberOfWeeks b = Some n /\ 1 <= n <= 52 /\
    dietPlan_valid (orElse (c_dietPlan b) no_diet) = true /\
    p = mkPlan (fresh_id plans) uid start n 1 active None 0 (goals_of_body (c_goals b))
               (orElse (c_dietPlan b) no_diet).
Proof.
  unfold Plan_create.
  destruct (c_startDate b) as [start|]; [|discriminate].
  destruct (c_numberOfWeeks b) as [n|]; [|discriminate].
  destruct (n <? 1) eqn:E1; [discriminate|].
  destruct (52 <? n) eqn:E2; [discriminate|].
  destruct (dietPlan_valid (orElse (c_dietPlan b) no_diet)) eqn:E3; [|discriminate].
  apply Z.ltb_ge in E1; apply Z.ltb_ge in E2.
  intros H; injection H as <-.
  exists start, n; repeat split; try reflexivity; lia.
Qed.

Lemma step_preserves_ok (plans plans' : list Plan) :
  Forall plan_ok plans -> step plans plans' -> Forall plan_ok plans'.
Proof.
  intros Hall Hstep.
  assert (Hin : forall q p, findOne q plans = Some p -> plan_ok p).
  { intros q p Hf. apply findOne_Some in Hf as [Hf _].
    rewrite Forall_forall in Hall. auto. }
  destruct Hstep as [uid b plans|uid now plans|uid now plans|uid now plans
                    |uid id b now plans|uid id plans].
  - unfold post_plan.
    destruct (findOne (live uid) plans); [assumption|].
    destruct (Plan_create plans uid b) as [e|p] eqn:E; simpl; [assumption|].
    apply Plan_create_inr in E as (start & n & _ & _ & Hn & Hdiet & ->).
    apply Forall_app; split; [assumption|].
    constructor; [split; [reflexivity | split; [simpl; lia | exact Hdiet]] | constructor].
  - unfold get_plan.
    destruct (findOne (live uid) plans) as [p|] eqn:E; [|assumption].
    destruct (status_eqb (status p) active && (numberOfWeeks p <? calculateCurrentWeek p now));
      [|assumption].
    apply save_preserves_ok; [|assumption].
    apply (Hin _ _ E).
  - unfold put_pause.
    destruct (findOne (with_status uid active) plans) as [p|] eqn:E; [|assumption].
    cbv zeta. apply save_preserves_ok; [|assumption].
    simpl. apply (Hin _ _ E).
  - unfold put_resume.
    destruct (findOne (with_status uid paused) plans) as [p|] eqn:E; [|assumption].
    cbv zeta. apply save_preserves_ok; [|assumption].
    simpl. apply (Hin _ _ E).
  - unfold put_plan.
    destruct (findOne (owned id uid) plans) as [p|] eqn:E; [|assumption].
    cbv zeta. apply save_preserves_ok; [|assumption].
    destruct (Hin _ _ E) as [Hw _].
    destruct (u_dietPlan b); destruct (u_goals b); destruct (u_numberOfWeeks b) as [n|];
      simpl; try assumption;
      match goal with |- context [if ?c then _ else _] => destruct c end; simpl; assumption.
  - unfold delete_plan.
    destruct (findOne (owned id uid) plans); simpl; [|assumption].
    apply remove_first_Forall; assumption.
Qed.

Lemma reachable_ok (plans : list Plan) :
  reachable plans -> Forall plan_ok plans.
Proof.
  induction 1 as [|plans plans' _ IH Hstep]; [constructor|].
  exact (step_preserves_ok _ _ IH Hstep).
Qed.

Lemma plan_ok_week_in_range (p : Plan) (now : Z) :
  plan_ok p -> 1 <= calculateCurrentWeek p now <= numberOfWeeks p.
Proof.
  intros [Hw [Hn _]].
  destruct (status p) eqn:Hs.
  - rewrite calculateCurrentWeek_running by (rewrite Hs; discriminate). lia.
  - rewrite calculateCurrentWeek_paused by assumption. lia.
  - rewrite calculateCurrentWeek_running by (rewrite Hs; discriminate). lia.
Qed.

(** The collections of the scenarios are reachable. *)
Lemma created_reachable : reachable created.
Proof.
  exact (reachable_step _ _ reachable_empty (step_post alice four_weeks [])).
Qed.

Lemma during_pause_reachable : reachable during_pause.
Proof.
  exact (reachable_step _ _ created_reachable (step_pause alice (jan2024 10) created)).
Qed.

Lemma resumed_reachable : reachable resumed.
Proof.
  exact (reachable_step _ _ during_pause_reachable
           (step_resume alice (jan2024 15) during_pause)).
Qed.

(** The bound on its own: in every collection the routes can produce,
    the week computed for a stored plan lies between 1 and its
    [numberOfWeeks] at every clock reading, a start date in the future
    included; and a successful pause answers with a [paused] plan whose
    stored [currentWeek] lies in that range and is what
    [calculateCurrentWeek] returns from then on. *)
Lemma calculateCurrentWeek_in_range (plans : list Plan) :
  reachable plans ->
  (forall p now, In p plans ->
      1 <= calculateCurrentWeek p now <= numberOfWeeks p) /\
  (forall uid t plans' p',
      put_pause plans uid t = (plans', Json 200 p') ->
      status p' = paused /\
      1 <= currentWeek p' <= numberOfWeeks p' /\
      forall now, calculateCurrentWeek p' now = currentWeek p').
Proof.
  intros Hreach.
  pose proof (reachable_ok _ Hreach) as Hall.
  split.
  - intros p now Hin. apply plan_ok_week_in_range.
    rewrite Forall_forall in Hall; auto.
  - intros uid t plans' p'. unfold put_pause.
    destruct (findOne (with_status uid active) plans) as [p|] eqn:E; [|discriminate].
    cbv zeta.
    destruct (save _ plans) as [e|saved] eqn:Es; [discriminate|].
    intros H; injection H as _ <-.
    apply save_inr in Es as [[Hn _] _]. simpl in Hn.
    apply findOne_Some in E as [Hin _].
    rewrite Forall_forall in Hall. destruct (Hall _ Hin) as [Hw _].
    assert (Hfrozen : calculateCurrentWeek (set_pausedAt (Some t) (set_status paused p)) t
                      = currentWeek p) by reflexivity.
    simpl. rewrite Hfrozen. repeat split; lia.
Qed.

Lemma calculateCurrentWeek_in_range_witness :
  1 <= calculateCurrentWeek
         (mkPlan 1 alice (jan2024 1) 4 1 active None 0 (mkGoals None 10000 4) no_diet)
         (jan2024 1 - days 30)
    <= numberOfWeeks
         (mkPlan 1 alice (jan2024 1) 4 1 active None 0 (mkGoals None 10000 4) no_diet).
Proof.
  apply (proj1 (calculateCurrentWeek_in_range created created_reachable)).
  left; reflexivity.
Defined.

(** The value a pause stores, for every reachable collection: the
    [currentWeek] the plan had in the collection, whatever the clock. *)
Lemma put_pause_keeps_currentWeek (plans plans' : list Plan) (uid : nat) (t : Z)
    (q : Plan) :
  put_pause plans uid t = (plans', Json 200 q) ->
  exists p, findOne (with_status uid active) plans = Some p /\
            currentWeek q = currentWeek p.
Proof.
  unfold put_pause.
  destruct (findOne (with_status uid active) plans) as [p|]; [|discriminate].
  cbv zeta. destruct (save _ plans) as [e|saved]; [discriminate|].
  intros H; injection H as _ <-. exists p. split; reflexivity.
Qed.

(** C3, at a plan of four weeks started on 2024-01-01 and paused on
    2024-01-10.  At the instant of the pause the running plan is in
    week 2, clamped.  The pause does not store that week: it writes back
    the [currentWeek] the plan already had, 1, and this is what the
    paused plan reports at every later clock.  The reported week is in
    range only because the stale value is the default 1. *)
Theorem pause_stores_the_stale_week :
  exists p q,
    created = [p] /\ status p = active /\
    calculateCurrentWeek p (jan2024 10) = 2 /\
    put_pause created alice (jan2024 10) = ([q], Json 200 q) /\
    status q = paused /\
    currentWeek q = currentWeek p /\ currentWeek q = 1 /\
    currentWeek q <> calculateCurrentWeek p (jan2024 10) /\
    calculateCurrentWeek q (jan2024 22) = 1.
Proof.
  exists (mkPlan 1 alice (jan2024 1) 4 1 active None 0 (mkGoals None 10000 4) no_diet),
         (mkPlan 1 alice (jan2024 1) 4 1 paused (Some (jan2024 10)) 0
                 (mkGoals None 10000 4) no_diet).
  evaluate.
Qed.

(** *** Creation *)

Lemma live_true (uid : nat) (p : Plan) :
  live uid p = true <->
  userId p = uid /\ (status p = active \/ status p = paused).
Proof.
  unfold live. rewrite andb_true_iff, orb_true_iff, Nat.eqb_eq.
  destruct (status p); simpl; intuition discriminate.
Qed.

(** C5, as stated, fails: with an [active] plan in the collection the
    request is refused with status 400, not 409. *)
Lemma conflict_answers_400_not_409 :
  exists p,
    created = [p] /\ userId p = alice /\ status p = active /\
    post_plan created alice two_weeks
    = (created, Failure 400 "You already have an active or paused plan. Please complete or cancel it first.") /\
    status_code (snd (post_plan created alice two_weeks)) <> 409.
Proof.
  exists (mkPlan 1 alice (jan2024 1) 4 1 active None 0 (mkGoals None 10000 4) no_diet).
  evaluate.
Qed.

(** C5, amended: when the caller has an [active] or [paused] plan the
    request is refused with status 400 and the collection is unchanged;
    when all plans of the caller are [completed] and the body passes the
    validators (a start date, a length between 1 and 52, and a
    [dietPlan] that is absent or whose meals have a [time] of the enum
    and items with a name and a quantity), the answer is 201 and one
    plan is added, with [status = active], [pausedDays = 0] and
    [currentWeek = 1]. *)
Theorem post_plan_conflict (plans : list Plan) (uid : nat) (b : CreateBody) :
  (forall p, In p plans -> userId p = uid ->
             status p = active \/ status p = paused ->
     exists msg, post_plan plans uid b = (plans, Failure 400 msg)) /\
  (forall start n,
     (forall p, In p plans -> userId p = uid -> status p = completed) ->
     c_startDate b = Some start -> c_numberOfWeeks b = Some n -> 1 <= n <= 52 ->
     diet_ok (c_dietPlan b) ->
     exists plan,
       post_plan plans uid b = (plans ++ [plan], Json 201 plan) /\
       userId plan = uid /\ startDate plan = start /\ numberOfWeeks plan = n /\
       status plan = active /\ pausedAt plan = None /\
       pausedDays plan = 0 /\ currentWeek plan = 1).
Proof.
  split.
  - intros p Hin Hu Hs. unfold post_plan.
    destruct (findOne (live uid) plans) eqn:E; [eexists; reflexivity|].
    pose proof (findOne_None _ _ E p Hin) as Hl.
    assert (live uid p = true) by (apply live_true; auto).
    congruence.
  - intros start n Hdone Hstart Hweeks [Hlo Hhi] Hdiet. unfold post_plan.
    destruct (findOne (live uid) plans) as [q|] eqn:E.
    + apply findOne_Some in E as [Hin Hl]. apply live_true in Hl as [Hu Hs].
      specialize (Hdone q Hin Hu). rewrite Hdone in Hs.
      destruct Hs; discriminate.
    + unfold Plan_create. rewrite Hstart, Hweeks.
      destruct (n <? 1) eqn:E1; [apply Z.ltb_lt in E1; lia|].
      destruct (52 <? n) eqn:E2; [apply Z.ltb_lt in E2; lia|].
      unfold diet_ok in Hdiet. rewrite Hdiet. simpl negb. cbv iota.
      eexists; split; [reflexivity|]. simpl. repeat split.
Qed.

Lemma post_plan_conflict_witness :
  (exists msg, post_plan created alice two_weeks = (created, Failure 400 msg)) /\
  (exists plan,
     post_plan finished alice four_weeks_with_diet
     = (finished ++ [plan], Json 201 plan) /\
     userId plan = alice /\ startDate plan = jan2024 1 /\ numberOfWeeks plan = 4 /\
     status plan = active /\ pausedAt plan = None /\
     pausedDays plan = 0 /\ currentWeek plan = 1).
Proof.
  split.
  - apply (proj1 (post_plan_conflict created alice two_weeks)
                 (mkPlan 1 alice (jan2024 1) 4 1 active None 0 (mkGoals None 10000 4) no_diet)).
    + left; reflexivity.
    + reflexivity.
    + left; reflexivity.
  - apply (proj2 (post_plan_conflict finished alice four_weeks_with_diet) (jan2024 1) 4).
    + intros p [<- | []] _. reflexivity.
    + reflexivity.
    + reflexivity.
    + split; vm_compute; discriminate.
    + reflexivity.
Defined.

(** A [dietPlan] that fails its validators is refused by create and by
    update, and nothing is stored. *)
Lemma bad_dietPlan_is_refused :
  post_plan [] alice (mkCreateBody (Some (jan2024 1)) (Some 4) None (Some brunch))
  = ([], NextError (ValidationError "Plan validation failed: dietPlan")) /\
  put_plan created alice 1%nat (mkUpdateBody None (Some 5) (Some brunch)) (jan2024 2)
  = (created, NextError (ValidationError "Plan validation failed: dietPlan")).
Proof. split; reflexivity. Qed.

(** C9, as stated, fails: a plan created on 2024-01-15 with start date
    2024-01-01 is in week 3 right away. *)
Lemma late_creation_starts_in_week_3 :
  exists p,
    post_plan [] alice four_weeks = ([p], Json 201 p) /\
    calculateCurrentWeek p (jan2024 15) = 3.
Proof.
  exists (mkPlan 1 alice (jan2024 1) 4 1 active None 0 (mkGoals None 10000 4) no_diet).
  evaluate.
Qed.

(** C9, amended: a plan that [POST /api/plan] has just created, read at a
    clock less than seven days past its start date (a start date in the
    future included), is in week 1. *)
Theorem week_after_creation (plans plans' : list Plan) (uid : nat)
    (b : CreateBody) (p : Plan) (now : Z) :
  post_plan plans uid b = (plans', Json 201 p) ->
  now - startDate p < 7 * 86400000 ->
  calculateCurrentWeek p now = 1.
Proof.
  unfold post_plan.
  destruct (findOne (live uid) plans); [discriminate|].
  destruct (Plan_create plans uid b) as [e|q] eqn:E; [discriminate|].
  intros H; injection H as _ <-.
  apply Plan_create_inr in E as (start & n & _ & _ & Hn & Hdiet & ->).
  simpl. intros Hnow.
  rewrite calculateCurrentWeek_running by (simpl; discriminate).
  unfold rawWeek; simpl startDate; simpl pausedDays; simpl numberOfWeeks; cbv zeta.
  assert (Hd : (now - start - 0 * 24 * 60 * 60 * 1000) / (1000 * 60 * 60 * 24) < 7).
  { apply Z.div_lt_upper_bound; lia. }
  assert (Hw : (now - start - 0 * 24 * 60 * 60 * 1000) / (1000 * 60 * 60 * 24) / 7 < 1).
  { apply Z.div_lt_upper_bound; lia. }
  lia.
Qed.

Lemma week_after_creation_witness :
  calculateCurrentWeek
    (mkPlan 1 alice (jan2024 1) 4 1 active None 0 (mkGoals None 10000 4) no_diet)
    (jan2024 1 + 3600000) = 1.
Proof.
  apply (week_after_creation [] created alice four_weeks).
  - reflexivity.
  - vm_compute; reflexivity.
Defined.

(** *** Pause and resume *)

Lemma with_status_true (uid : nat) (s : Status) (p : Plan) :
  with_status uid s p = true <-> userId p = uid /\ status p = s.
Proof.
  unfold with_status. rewrite andb_true_iff, Nat.eqb_eq.
  destruct (status p), s; simpl; intuition discriminate.
Qed.

(** Without a [paused] plan of the caller, resume answers 404. *)
Lemma put_resume_not_found (plans : list Plan) (uid : nat) (now : Z) :
  (forall p, In p plans -> userId p = uid -> status p <> paused) ->
  put_resume plans uid now = (plans, Failure 404 "No paused plan to resume").
Proof.
  intros Hnone. unfold put_resume.
  destruct (findOne (with_status uid paused) plans) as [p|] eqn:E; [|reflexivity].
  apply findOne_Some in E as [Hin Hq]. apply with_status_true in Hq as [Hu Hs].
  destruct (Hnone p Hin Hu Hs).
Qed.

(** What resume does to the plan it finds. *)
Lemma put_resume_effect (plans : list Plan) (uid : nat) (now t : Z) (p : Plan) :
  findOne (with_status uid paused) plans = Some p ->
  storable p ->
  pausedAt p = Some t ->
  exists r,
    put_resume plans uid now = (replace_plan r plans, Json 200 (plan_view r now)) /\
    pausedDays r = pausedDays p + (now - t) / 86400000 /\
    pausedAt r = None /\ status r = active /\
    startDate r = startDate p /\ numberOfWeeks r = numberOfWeeks p.
Proof.
  intros Hf Hn Ht. unfold put_resume. rewrite Hf. cbv zeta.
  rewrite save_valid by (simpl; exact Hn).
  eexists; split; [reflexivity|].
  simpl. rewrite Ht. simpl. repeat split.
Qed.

(** Partial days do not count. *)
Lemma resume_within_a_day (now t : Z) :
  t <= now -> now - t < 86400000 -> (now - t) / 86400000 = 0.
Proof. intros H1 H2. apply Z.div_small. lia. Qed.

(** After a pause of exactly [D] whole days the week count before the
    clamp is what it was at the instant of the pause. *)
Lemma rawWeek_after_whole_days (p : Plan) (t now D : Z) :
  now - t = D * 86400000 ->
  rawWeek (set_pausedAt None (set_status active
             (set_pausedDays (pausedDays p + (now - t) / (1000 * 60 * 60 * 24)) p))) now
  = rawWeek p t.
Proof.
  intros HD. unfold rawWeek.
  cbn [startDate pausedDays set_pausedAt set_status set_pausedDays]; cbv zeta.
  change (1000 * 60 * 60 * 24) with 86400000.
  rewrite HD, Z.div_mul by lia.
  do 3 f_equal. lia.
Qed.

(** C6, at a plan of four weeks started on 2024-01-01, paused on
    2024-01-10 and resumed exactly five days later.  Resume adds 5 to
    [pausedDays], clears [pausedAt] and makes the plan [active], and the
    week right after resuming is 2, the week the running plan had at the
    instant of the pause.  But the week frozen by the pause, which the
    paused plan reports, is 1: [PUT /api/plan/pause] sets the status
    before it calls [calculateCurrentWeek], so it stores the stale
    [currentWeek] back. *)
Theorem resume_week_is_not_the_frozen_week :
  exists p q r,
    created = [p] /\ during_pause = [q] /\ resumed = [r] /\
    calculateCurrentWeek p (jan2024 10) = 2 /\
    status q = paused /\ pausedAt q = Some (jan2024 10) /\
    currentWeek q = 1 /\ calculateCurrentWeek q (jan2024 15) = 1 /\
    status r = active /\ pausedAt r = None /\
    pausedDays r = pausedDays q + 5 /\
    calculateCurrentWeek r (jan2024 15) = 2.
Proof.
  exists (mkPlan 1 alice (jan2024 1) 4 1 active None 0 (mkGoals None 10000 4) no_diet),
         (mkPlan 1 alice (jan2024 1) 4 1 paused (Some (jan2024 10)) 0 (mkGoals None 10000 4) no_diet),
         (mkPlan 1 alice (jan2024 1) 4 1 active None 5 (mkGoals None 10000 4) no_diet).
  evaluate.
Qed.

(** *** Update *)

Lemma owned_true (id uid : nat) (p : Plan) :
  owned id uid p = true <-> _id p = id /\ userId p = uid.
Proof. unfold owned. now rewrite andb_true_iff, !Nat.eqb_eq. Qed.

(** After a save the query by id answers with the saved document. *)
Lemma findOne_replace_plan (id uid : nat) (plans : list Plan) (p p' : Plan) :
  findOne (owned id uid) plans = Some p ->
  _id p' = _id p -> userId p' = userId p ->
  findOne (owned id uid) (replace_plan p' plans) = Some p'.
Proof.
  intros Hf Hid Hu.
  assert (Hp' : owned id uid p' = true).
  { apply findOne_Some in Hf as [_ Ho]. apply owned_true in Ho as [<- <-].
    apply owned_true; auto. }
  unfold findOne, replace_plan in *.
  induction plans as [|q rest IH]; simpl in *; [discriminate|].
  destruct (owned id uid q) eqn:Eq.
  - injection Hf as ->. rewrite Hid, Nat.eqb_refl, Hp'. reflexivity.
  - destruct (_id q =? _id p')%nat.
    + now rewrite Hp'.
    + rewrite Eq. auto.
Qed.

(** C8, as stated, fails: 53 is not below the computed week, yet it is
    not stored; the save is refused by the validator of the schema. *)
Lemma put_plan_53_not_stored :
  exists p,
    created = [p] /\ numberOfWeeks p = 4 /\
    calculateCurrentWeek p (jan2024 2) <= 53 /\
    put_plan created alice (_id p) (mkUpdateBody None (Some 53) None) (jan2024 2)
    = (created, NextError (ValidationError "Plan cannot exceed 52 weeks")).
Proof.
  exists (mkPlan 1 alice (jan2024 1) 4 1 active None 0 (mkGoals None 10000 4) no_diet).
  evaluate.
Qed.

Lemma save_refused (p : Plan) (plans : list Plan) :
  52 < numberOfWeeks p \/ dietPlan_valid (dietPlan p) = false ->
  exists e, save p plans = inl e.
Proof.
  intros H. unfold save.
  destruct (numberOfWeeks p <? 1); [eexists; reflexivity|].
  destruct (52 <? numberOfWeeks p) eqn:E2; [eexists; reflexivity|].
  apply Z.ltb_ge in E2.
  destruct H as [H | H]; [lia|]. rewrite H. eexists; reflexivity.
Qed.

(** C8, amended: for a plan of a reachable collection and a request that
    supplies [numberOfWeeks = n]: when [n <= 52] and the [dietPlan] of
    the body, if any, passes its validators, the request succeeds and
    the stored length is [n] when [n] is at least the computed week, and
    stays what it was when [n] is below it; with [n > 52], or with a
    [dietPlan] that fails its validators, the save is refused and the
    collection is unchanged. *)
Theorem put_plan_numberOfWeeks (plans : list Plan) (uid id : nat)
    (b : UpdateBody) (now : Z) (p : Plan) (n : Z) :
  reachable plans ->
  findOne (owned id uid) plans = Some p ->
  u_numberOfWeeks b = Some n ->
  (n <= 52 -> diet_ok (u_dietPlan b) ->
   exists p',
     put_plan plans uid id b now = (replace_plan p' plans, Json 200 (plan_view p' now)) /\
     findOne (owned id uid) (replace_plan p' plans) = Some p' /\
     (calculateCurrentWeek p now <= n -> numberOfWeeks p' = n) /\
     (n < calculateCurrentWeek p now -> numberOfWeeks p' = numberOfWeeks p)) /\
  (52 < n ->
   exists e, put_plan plans uid id b now = (plans, NextError e)) /\
  (forall d, u_dietPlan b = Some d -> dietPlan_valid d = false ->
   exists e, put_plan plans uid id b now = (plans, NextError e)).
Proof.
  intros Hreach Hf Hb.
  assert (Hok : plan_ok p).
  { pose proof (reachable_ok _ Hreach) as Hall. rewrite Forall_forall in Hall.
    apply Hall. apply (findOne_Some _ _ _ Hf). }
  pose proof (plan_ok_week_in_range p now Hok) as Hweek.
  destruct Hok as [_ [Hn Hdp]].
  set (p0 := match u_dietPlan b with
             | Some d => set_dietPlan d p
             | None => p
             end).
  set (p1 := match u_goals b with
             | Some g => set_goals (merge_goals (goals p0) g) p0
             | None => p0
             end).
  assert (H1 : calculateCurrentWeek p1 now = calculateCurrentWeek p now
               /\ _id p1 = _id p /\ userId p1 = userId p
               /\ numberOfWeeks p1 = numberOfWeeks p
               /\ dietPlan p1 = match u_dietPlan b with
                                | Some d => d
                                | None => dietPlan p
                                end).
  { unfold p1, p0; destruct (u_dietPlan b); destruct (u_goals b); repeat split. }
  destruct H1 as (Hc & Hid & Hu & Hn1 & Hd1).
  unfold put_plan. rewrite Hf. cbv zeta. fold p0. fold p1. rewrite Hb, Hc.
  split; [|split].
  - intros Hbound Hdiet.
    assert (Hd : dietPlan_valid (dietPlan p1) = true).
    { rewrite Hd1. unfold diet_ok in Hdiet.
      destruct (u_dietPlan b); [exact Hdiet | exact Hdp]. }
    destruct (calculateCurrentWeek p now <=? n) eqn:E.
    + apply Z.leb_le in E.
      assert (En : (n =? 0) = false) by (apply Z.eqb_neq; lia).
      rewrite En. simpl negb. simpl andb.
      rewrite save_valid by (split; [simpl; lia | exact Hd]).
      exists (set_numberOfWeeks n p1). split; [reflexivity|].
      split; [apply (findOne_replace_plan _ _ _ p); auto|].
      split; [reflexivity | lia].
    + apply Z.leb_gt in E. rewrite andb_false_r.
      rewrite save_valid by (split; [lia | exact Hd]).
      exists p1. split; [reflexivity|].
      split; [apply (findOne_replace_plan _ _ _ p); auto|].
      split; [lia | intros _; exact Hn1].
  - intros Hbound.
    assert (E : (calculateCurrentWeek p now <=? n) = true) by (apply Z.leb_le; lia).
    assert (En : (n =? 0) = false) by (apply Z.eqb_neq; lia).
    rewrite E, En. simpl negb. simpl andb.
    destruct (save_refused (set_numberOfWeeks n p1) plans) as [e He];
      [left; simpl; lia|].
    rewrite He. exists e. reflexivity.
  - intros d Hsome Hbad.
    assert (Hd : dietPlan_valid (dietPlan p1) = false) by (now rewrite Hd1, Hsome).
    match goal with
    | |- context [save ?q plans] =>
        destruct (save_refused q plans) as [e He]
    end.
    { right. destruct (negb (n =? 0) && (calculateCurrentWeek p now <=? n)); exact Hd. }
    rewrite He. exists e. reflexivity.
Qed.

Lemma put_plan_numberOfWeeks_witness :
  exists p',
    put_plan created alice 1%nat (mkUpdateBody None (Some 3) (Some oats)) (jan2024 9)
    = (replace_plan p' created, Json 200 (plan_view p' (jan2024 9))) /\
    findOne (owned 1%nat alice) (replace_plan p' created) = Some p' /\
    (calculateCurrentWeek
       (mkPlan 1 alice (jan2024 1) 4 1 active None 0 (mkGoals None 10000 4) no_diet) (jan2024 9) <= 3 ->
     numberOfWeeks p' = 3) /\
    (3 < calculateCurrentWeek
           (mkPlan 1 alice (jan2024 1) 4 1 active None 0 (mkGoals None 10000 4) no_diet) (jan2024 9) ->
     numberOfWeeks p' = numberOfWeeks
           (mkPlan 1 alice (jan2024 1) 4 1 active None 0 (mkGoals None 10000 4) no_diet)).
Proof.
  apply (proj1 (put_plan_numberOfWeeks created alice 1%nat
                  (mkUpdateBody None (Some 3) (Some oats)) (jan2024 9)
                  (mkPlan 1 alice (jan2024 1) 4 1 active None 0 (mkGoals None 10000 4) no_diet)
                  3 created_reachable eq_refl eq_refl)).
  - vm_compute; discriminate.
  - reflexivity.
Defined.

End PlanFacts.

(** * Properties of the logging routes *)

Module LogFacts.
Import PlanModel PlanRoutes Scenarios LogRoutes StepsRoutes.

Lemma week_choice_js_or (supplied : option Z) (computed : Z) :
  week_choice supplied computed (js_or supplied computed).
Proof.
  unfold week_choice, js_or. split.
  - intros w -> Hw. apply Z.eqb_neq in Hw. now rewrite Hw.
  - intros [-> | ->]; reflexivity.
Qed.

(** The expressions every logging handler evaluates resolve the week and
    the plan. *)
Lemma resolution (plans : list Plan) (uid : nat) (supplied : option Z) (now : Z) :
  resolved plans uid supplied now
    (js_or supplied
       (match findOne (live uid) plans with
        | Some p => calculateCurrentWeek p now
        | None => 1
        end))
    (option_map _id (findOne (live uid) plans)).
Proof.
  destruct (findOne (live uid) plans) as [p|] eqn:E.
  - left. exists p.
    apply PlanFacts.findOne_Some in E as [Hin Hl].
    apply PlanFacts.live_true in Hl as [Hu Hs].
    repeat split; auto; apply week_choice_js_or.
  - right. split; [|split; [reflexivity | apply week_choice_js_or]].
    intros p Hin Hu.
    pose proof (PlanFacts.findOne_None _ _ E p Hin) as Hl.
    destruct (status p) eqn:Hs; [| |reflexivity];
      assert (live uid p = true) by (apply PlanFacts.live_true; auto); congruence.
Qed.

(** The helper of routes/weight.js resolves the week of a body that
    supplies none. *)
Lemma getCurrentWeek_resolved (plans : list Plan) (uid : nat) (now : Z) :
  resolved plans uid None now (getCurrentWeek plans uid now)
           (option_map _id (findOne (live uid) plans)).
Proof. exact (resolution plans uid None now). Qed.

Lemma Entry_create_201 (P : Type) (valid : P -> bool) (entries entries' : list (Entry P))
    (uid : nat) (pid : option nat) (payload : P) (date week : Z) (doc : Entry P) (c : Z) :
  Entry_create P valid entries uid pid payload date week = (entries', Json c doc) ->
  e_week doc = week /\ e_planId doc = pid /\ e_userId doc = uid /\
  entries' = entries ++ [doc].
Proof.
  unfold Entry_create.
  destruct (week <? 1); [discriminate|].
  destruct (negb (valid payload)); [discriminate|].
  intros H; injection H as <- _ <-. repeat split.
Qed.

(** C7, as stated, fails: a supplied week of 0 does not take precedence;
    the entry is stamped with the computed week. *)
Lemma supplied_week_0_is_overridden :
  exists doc,
    post_weight unit any_payload created [] alice
                (mkEntryBody None (Some 0) tt) (jan2024 9)
    = ([doc], Json 201 doc) /\
    e_week doc = 2 /\ e_week doc <> 0.
Proof.
  exists (mkEntry 1 alice (Some 1%nat) (jan2024 9) 2 tt).
  evaluate.
Qed.

(** C7, amended: every entry created by the weight, workout, meal and
    steps handlers carries the resolved pair: the plan id of an [active]
    or [paused] plan of the caller and, unless the body supplies a week
    other than 0, the week computed for that plan; no plan id and, unless
    the body supplies a week other than 0, week 1 when the caller has no
    such plan.  A supplied week other than 0 is stamped as it is. *)
Theorem week_resolution (P : Type) (valid missing : P -> bool)
    (plans : list Plan) (uid : nat) (now : Z) :
  (forall entries body entries' doc,
      post_weight P valid plans entries uid body now = (entries', Json 201 doc) ->
      resolved plans uid (b_week body) now (e_week doc) (e_planId doc)) /\
  (forall entries body entries' doc,
      post_workout P valid plans entries uid body now = (entries', Json 201 doc) ->
      resolved plans uid (b_week body) now (e_week doc) (e_planId doc)) /\
  (forall entries body entries' doc,
      post_meal P valid missing plans entries uid body now = (entries', Json 201 doc) ->
      resolved plans uid (b_week body) now (e_week doc) (e_planId doc)) /\
  (forall startOfDay entries body entries' doc,
      find (on_date uid (startOfDay (orElse (date body) now))) entries = None ->
      post_steps startOfDay plans entries uid body now = (entries', Json 201 doc) ->
      resolved plans uid (week body) now (s_week doc) (s_planId doc)).
Proof.
  repeat match goal with |- _ /\ _ => split end.
  - intros entries body entries' doc H. unfold post_weight in H.
    apply Entry_create_201 in H as (-> & -> & _). apply resolution.
  - intros entries body entries' doc H. unfold post_workout in H.
    apply Entry_create_201 in H as (-> & -> & _). apply resolution.
  - intros entries body entries' doc H. unfold post_meal in H.
    destruct (missing (b_payload body)); [discriminate|].
    apply Entry_create_201 in H as (-> & -> & _). apply resolution.
  - intros startOfDay entries body entries' doc Hnone H.
    unfold post_steps in H. cbv zeta in H. rewrite Hnone in H.
    destruct (validate _ _ _ _) as [e|c]; [discriminate|].
    injection H as _ <-. simpl. apply resolution.
Qed.

Lemma week_resolution_witness :
  resolved created alice (Some 3) (jan2024 9) 3 (Some 1%nat).
Proof.
  apply (proj1 (week_resolution unit any_payload never_missing created alice (jan2024 9))
               [] (mkEntryBody None (Some 3) tt)
               [mkEntry 1 alice (Some 1%nat) (jan2024 9) 3 tt]
               (mkEntry 1 alice (Some 1%nat) (jan2024 9) 3 tt)).
  reflexivity.
Defined.

(** *** Steps for a date that already has an entry *)

Lemma validate_passes (c week : Z) (d cal : option Z) :
  0 <= c <= 100000 -> 1 <= week -> nonneg d = true -> nonneg cal = true ->
  validate (Some c) week d cal = inr c.
Proof.
  intros [H0 H1] Hw Hd Hc. unfold validate.
  destruct (c <? 0) eqn:E0; [apply Z.ltb_lt in E0; lia|].
  destruct (100000 <? c) eqn:E1; [apply Z.ltb_lt in E1; lia|].
  destruct (week <? 1) eqn:E2; [apply Z.ltb_lt in E2; lia|].
  now rewrite Hd, Hc.
Qed.

Lemma find_replace_steps (uid : nat) (d : Z) (entries : list Steps) (e e' : Steps) :
  find (on_date uid d) entries = Some e ->
  s_id e' = s_id e -> s_userId e' = s_userId e -> s_date e' = s_date e ->
  find (on_date uid d) (replace_steps e' entries) = Some e'.
Proof.
  intros Hf Hid Hu Hd.
  assert (He' : on_date uid d e' = true).
  { apply find_some in Hf as [_ Ho]. unfold on_date in *. now rewrite Hu, Hd. }
  unfold replace_steps.
  induction entries as [|q rest IH]; simpl in *; [discriminate|].
  destruct (on_date uid d q) eqn:Eq.
  - injection Hf as ->. rewrite Hid, Nat.eqb_refl, He'. reflexivity.
  - destruct (s_id q =? s_id e')%nat.
    + now rewrite He'.
    + rewrite Eq. auto.
Qed.

Lemma replace_steps_length (e : Steps) (entries : list Steps) :
  List.length (replace_steps e entries) = List.length entries.
Proof. apply length_map. Qed.

(** C10: when the caller already has an entry [e] for the date of the
    request and the request passes the validators, the handler saves and
    answers with [e] updated in place: [count] and [goal] are those of
    the request, [distance] and [caloriesBurned] are overwritten when the
    body supplies them, and [week], [planId] and [date] (and the id and
    the owner) are those of [e], whatever week the body supplies or the
    plan computes; no entry is added. *)
Theorem post_steps_existing_date (startOfDay : Z -> Z) (plans : list Plan)
    (entries : list Steps) (uid : nat) (body : StepsBody) (now : Z)
    (e : Steps) (c : Z) :
  find (on_date uid (startOfDay (orElse (date body) now))) entries = Some e ->
  count body = Some c -> 0 <= c <= 100000 -> 1 <= s_week e ->
  nonneg (supplied_or_kept (distance body) (s_distance e)) = true ->
  nonneg (supplied_or_kept (caloriesBurned body) (s_caloriesBurned e)) = true ->
  exists e',
    post_steps startOfDay plans entries uid body now
    = (replace_steps e' entries, Json 201 e') /\
    find (on_date uid (startOfDay (orElse (date body) now))) (replace_steps e' entries)
    = Some e' /\
    List.length (replace_steps e' entries) = List.length entries /\
    s_count e' = c /\
    s_goal e' = js_or (goal body)
                  (js_or (option_map (fun p => dailyStepsGoal (goals p))
                                     (findOne (live uid) plans)) 10000) /\
    s_distance e' = supplied_or_kept (distance body) (s_distance e) /\
    s_caloriesBurned e' = supplied_or_kept (caloriesBurned body) (s_caloriesBurned e) /\
    s_week e' = s_week e /\ s_planId e' = s_planId e /\ s_date e' = s_date e /\
    s_id e' = s_id e /\ s_userId e' = s_userId e.
Proof.
  intros Hf Hc Hrange Hweek Hd Hcal.
  unfold post_steps. cbv zeta. rewrite Hf, Hc.
  fold (supplied_or_kept (distance body) (s_distance e)).
  fold (supplied_or_kept (caloriesBurned body) (s_caloriesBurned e)).
  rewrite (validate_passes _ _ _ _ Hrange Hweek Hd Hcal).
  eexists. split; [reflexivity|].
  split; [apply (find_replace_steps _ _ _ e); auto|].
  split; [apply replace_steps_length|].
  simpl. repeat split.
Qed.

Lemma post_steps_existing_date_witness :
  exists e',
    post_steps utc_midnight created [logged] alice
               (mkStepsBody (Some 9000) None None (Some 350) (Some 1704279600000) (Some 4))
               (jan2024 20)
    = (replace_steps e' [logged], Json 201 e') /\
    s_count e' = 9000 /\ s_goal e' = 10000 /\
    s_distance e' = Some 3 /\ s_caloriesBurned e' = Some 350 /\
    s_week e' = 1 /\ s_planId e' = Some 1%nat /\ s_date e' = 1704240000000.
Proof.
  destruct (post_steps_existing_date utc_midnight created [logged] alice
              (mkStepsBody (Some 9000) None None (Some 350) (Some 1704279600000) (Some 4))
              (jan2024 20) logged 9000)
    as (e' & Hpost & _ & _ & Hcount & Hgoal & Hdist & Hcal & Hweek & Hplan & Hdate & _).
  - reflexivity.
  - reflexivity.
  - vm_compute; split; discriminate.
  - vm_compute; discriminate.
  - reflexivity.
  - reflexivity.
  - exists e'. repeat split; assumption.
Defined.

End LogFacts.

(** * Invariants of the plan collection *)

Module PlanInvariants.
Import PlanModel PlanRoutes PlanReads Scenarios PlanFacts.

(** The completion test of [GET /api/plan] never succeeds. *)
Lemma completion_test_false (p : Plan) (now : Z) :
  status_eqb (status p) active && (numberOfWeeks p <? calculateCurrentWeek p now) = false.
Proof.
  destruct (status p) eqn:Hs; simpl; try reflexivity.
  rewrite calculateCurrentWeek_running by (rewrite Hs; discriminate).
  apply Z.ltb_ge. lia.
Qed.

Lemma get_plan_stores_nothing (plans : list Plan) (uid : nat) (now : Z) :
  fst (get_plan plans uid now) = plans.
Proof.
  unfold get_plan.
  destruct (findOne (live uid) plans) as [p|]; cbv zeta; [|reflexivity].
  now rewrite completion_test_false.
Qed.

(** X1: [GET /api/plan] writes nothing, whatever the collection holds and
    whatever the clock reads: it answers 404, or 200 with the plan it
    found and the computed week, and the collection is as it was. *)
Theorem get_plan_reads_only (plans : list Plan) (uid : nat) (now : Z) :
  fst (get_plan plans uid now) = plans /\
  match findOne (live uid) plans with
  | Some p => snd (get_plan plans uid now) = Json 200 (plan_view p now)
  | None => snd (get_plan plans uid now) = Failure 404 "No active plan found"
  end.
Proof.
  split; [apply get_plan_stores_nothing|].
  unfold get_plan.
  destruct (findOne (live uid) plans) as [p|]; cbv zeta; [|reflexivity].
  now rewrite completion_test_false.
Qed.

(** *** Lists of documents *)

Lemma fresh_id_above (plans : list Plan) (p : Plan) :
  In p plans -> (_id p < fresh_id plans)%nat.
Proof.
  unfold fresh_id. induction plans as [|q rest IH]; simpl; [intros []|].
  intros [-> | Hin]; [lia | specialize (IH Hin); lia].
Qed.

Lemma fresh_id_not_stored (plans : list Plan) :
  ~ In (fresh_id plans) (map _id plans).
Proof.
  intros Hin. apply in_map_iff in Hin as (p & Hid & Hp).
  pose proof (fresh_id_above _ _ Hp). lia.
Qed.

Lemma replace_plan_ids (p' : Plan) (plans : list Plan) :
  map _id (replace_plan p' plans) = map _id plans.
Proof.
  unfold replace_plan. induction plans as [|q rest IH]; simpl; [reflexivity|].
  rewrite IH. destruct (_id q =? _id p')%nat eqn:E; [|reflexivity].
  apply Nat.eqb_eq in E. now rewrite E.
Qed.

Lemma In_replace_plan (p' a : Plan) (plans : list Plan) :
  In a (replace_plan p' plans) ->
  a = p' \/ (In a plans /\ _id a <> _id p').
Proof.
  unfold replace_plan. intros Hin. apply in_map_iff in Hin as (q & Hq & Hin).
  destruct (_id q =? _id p')%nat eqn:E.
  - left; congruence.
  - right. subst a. split; [assumption | now apply Nat.eqb_neq].
Qed.

Lemma In_replace_plan_new (p p' : Plan) (plans : list Plan) :
  In p plans -> _id p' = _id p -> In p' (replace_plan p' plans).
Proof.
  intros Hin Hid. unfold replace_plan. apply in_map_iff.
  exists p. split; [|assumption]. now rewrite Hid, Nat.eqb_refl.
Qed.

Lemma In_remove_first (q : Plan -> bool) (a : Plan) (plans : list Plan) :
  In a (remove_first q plans) -> In a plans.
Proof.
  induction plans as [|p rest IH]; simpl; [intros []|].
  destruct (q p); [auto|]. intros [-> | H]; auto.
Qed.

Lemma unique_ids_same (plans : list Plan) (a b : Plan) :
  unique_ids plans -> In a plans -> In b plans -> _id a = _id b -> a = b.
Proof.
  unfold unique_ids. induction plans as [|q rest IH]; simpl; [intros _ []|].
  intros Hnd Ha Hb Hid. inversion Hnd as [|x l Hnotin Hrest]; subst.
  destruct Ha as [-> | Ha], Hb as [-> | Hb]; auto.
  - exfalso. apply Hnotin. rewrite Hid. now apply in_map.
  - exfalso. apply Hnotin. rewrite <- Hid. now apply in_map.
Qed.

Lemma replace_plan_same (p : Plan) (plans : list Plan) :
  (forall q, In q plans -> _id q = _id p -> q = p) ->
  replace_plan p plans = plans.
Proof.
  unfold replace_plan. induction plans as [|q rest IH]; simpl; [reflexivity|].
  intros H. rewrite IH by (intros; apply H; auto).
  destruct (_id q =? _id p)%nat eqn:E; [|reflexivity].
  apply Nat.eqb_eq in E. now rewrite (H q (or_introl eq_refl) E).
Qed.

Lemma replace_plan_twice (p p' : Plan) (plans : list Plan) :
  _id p' = _id p ->
  replace_plan p (replace_plan p' plans) = replace_plan p plans.
Proof.
  intros Hid. unfold replace_plan. rewrite map_map. apply map_ext.
  intros q. rewrite Hid.
  destruct (_id q =? _id p)%nat eqn:E; [|now rewrite E].
  now rewrite Hid, Nat.eqb_refl.
Qed.

Lemma remove_first_unique (q : Plan -> bool) (plans : list Plan) :
  unique_ids plans -> unique_ids (remove_first q plans).
Proof.
  unfold unique_ids. induction plans as [|p rest IH]; simpl; [auto|].
  intros Hnd. inversion Hnd as [|x l Hnotin Hrest]; subst.
  destruct (q p); [assumption|]. simpl. constructor; [|auto].
  intros Hin. apply Hnotin. apply in_map_iff in Hin as (a & Ha & Hin).
  apply in_map_iff. exists a. split; [assumption|].
  now apply In_remove_first in Hin.
Qed.

(** *** The invariant and its preservation *)

Lemma live_same_user (uid : nat) (p p' : Plan) :
  userId p' = userId p ->
  (status p = active \/ status p = paused) ->
  (status p' = active \/ status p' = paused) ->
  forall u, live u p' = live u p.
Proof.
  intros Hu Hs Hs' u. unfold live. rewrite Hu.
  destruct Hs as [-> | ->], Hs' as [-> | ->]; reflexivity.
Qed.

Lemma replace_coherent (plans : list Plan) (p p' : Plan) :
  coherent plans -> In p plans -> _id p' = _id p ->
  (forall u, live u p' = live u p) -> well_marked p' ->
  coherent (replace_plan p' plans).
Proof.
  intros (Hid & Hlive & Hmark) Hin Hsame Hl Hm. repeat split.
  - unfold unique_ids. now rewrite replace_plan_ids.
  - intros a b u Ha Hb La Lb.
    apply In_replace_plan in Ha as [-> | [Ha _]];
      apply In_replace_plan in Hb as [-> | [Hb _]].
    + reflexivity.
    + rewrite Hl in La. rewrite Hsame. exact (Hlive _ _ u Hin Hb La Lb).
    + rewrite Hl in Lb. rewrite Hsame. exact (Hlive _ _ u Ha Hin La Lb).
    + exact (Hlive _ _ u Ha Hb La Lb).
  - apply replace_plan_Forall; assumption.
Qed.

Lemma saved_coherent (plans : list Plan) (p p' : Plan) (r : Response Plan) :
  coherent plans -> In p plans -> _id p' = _id p ->
  (forall u, live u p' = live u p) -> well_marked p' ->
  coherent (fst (match save p' plans with
                 | inl e => (plans, NextError e)
                 | inr plans' => (plans', r)
                 end)).
Proof.
  intros Hc Hin Hid Hl Hm.
  destruct (save p' plans) as [e|plans'] eqn:E; simpl; [assumption|].
  apply save_inr in E as [_ ->]. now apply (replace_coherent _ p).
Qed.

Lemma step_preserves_coherent (plans plans' : list Plan) :
  coherent plans -> step plans plans' -> coherent plans'.
Proof.
  intros Hc Hstep.
  destruct Hstep as [uid b plans|uid now plans|uid now plans|uid now plans
                    |uid id b now plans|uid id plans].
  - (* POST *)
    unfold post_plan.
    destruct (findOne (live uid) plans) eqn:Ef; [assumption|].
    destruct (Plan_create plans uid b) as [e|p] eqn:E; simpl; [assumption|].
    apply Plan_create_inr in E as (start & n & _ & _ & _ & _ & ->).
    destruct Hc as (Hid & Hlive & Hmark).
    pose proof (findOne_None _ _ Ef) as Hnone.
    repeat split.
    + unfold unique_ids. rewrite map_app. simpl.
      apply NoDup_app.
      * assumption.
      * constructor; [intros [] | constructor].
      * intros x Hx [<- | []]. now apply fresh_id_not_stored in Hx.
    + intros a c u Ha Hb La Lb.
      apply in_app_iff in Ha as [Ha | [<- | []]];
        apply in_app_iff in Hb as [Hb | [<- | []]].
      * exact (Hlive _ _ u Ha Hb La Lb).
      * apply live_true in Lb as [Hu _]. simpl in Hu. subst u.
        rewrite (Hnone a Ha) in La. discriminate.
      * apply live_true in La as [Hu _]. simpl in Hu. subst u.
        rewrite (Hnone c Hb) in Lb. discriminate.
      * reflexivity.
    + apply Forall_app. split; [assumption|].
      constructor; [reflexivity | constructor].
  - (* GET *)
    now rewrite get_plan_stores_nothing.
  - (* pause *)
    unfold put_pause.
    destruct (findOne (with_status uid active) plans) as [p|] eqn:E; [|assumption].
    cbv zeta. apply findOne_Some in E as [Hin Hq].
    apply with_status_true in Hq as [Hu Hs].
    apply (saved_coherent _ p); auto.
    + apply live_same_user; simpl; auto.
    + unfold well_marked; simpl. eauto.
  - (* resume *)
    unfold put_resume.
    destruct (findOne (with_status uid paused) plans) as [p|] eqn:E; [|assumption].
    cbv zeta. apply findOne_Some in E as [Hin Hq].
    apply with_status_true in Hq as [Hu Hs].
    apply (saved_coherent _ p); auto.
    + apply live_same_user; simpl; auto.
    + reflexivity.
  - (* PUT /:id *)
    unfold put_plan.
    destruct (findOne (owned id uid) plans) as [p|] eqn:E; [|assumption].
    cbv zeta. apply findOne_Some in E as [Hin _].
    assert (Hm : well_marked p).
    { destruct Hc as (_ & _ & Hmark). rewrite Forall_forall in Hmark. auto. }
    apply (saved_coherent _ p); auto;
      destruct (u_dietPlan b); destruct (u_goals b);
        destruct (u_numberOfWeeks b) as [n|]; simpl; auto;
      match goal with |- context [if ?c then _ else _] => destruct c end; auto.
  - (* DELETE *)
    unfold delete_plan.
    destruct (findOne (owned id uid) plans); simpl; [|assumption].
    destruct Hc as (Hid & Hlive & Hmark). repeat split.
    + now apply remove_first_unique.
    + intros a c u Ha Hb. apply In_remove_first in Ha, Hb. eauto.
    + now apply remove_first_Forall.
Qed.

Lemma reachable_coherent (plans : list Plan) :
  reachable plans -> coherent plans.
Proof.
  induction 1 as [|plans plans' _ IH Hstep].
  - repeat split; [constructor | intros a b u [] | constructor].
  - exact (step_preserves_coherent _ _ IH Hstep).
Qed.

(** *** What the invariant gives *)

(** X2: No sequence of requests stores a [completed] plan, and a stored plan
    has [pausedAt] set exactly when it is [paused]. *)
Theorem reachable_never_completed (plans : list Plan) (p : Plan) :
  reachable plans -> In p plans ->
  status p <> completed /\
  (status p = paused <-> pausedAt p <> None).
Proof.
  intros Hr Hin.
  destruct (reachable_coherent _ Hr) as (_ & _ & Hmark).
  rewrite Forall_forall in Hmark. specialize (Hmark p Hin).
  unfold well_marked in Hmark.
  destruct (status p); try contradiction.
  - rewrite Hmark. repeat split; try discriminate. intros H; now destruct H.
  - destruct Hmark as [t ->]. repeat split; discriminate.
Qed.

Lemma reachable_never_completed_witness :
  status (mkPlan 1 alice (jan2024 1) 4 1 paused (Some (jan2024 10)) 0 (mkGoals None 10000 4) no_diet)
  <> completed.
Proof.
  apply (reachable_never_completed during_pause _ during_pause_reachable).
  left; reflexivity.
Defined.

Lemma filter_unique (g : Plan -> bool) (plans : list Plan) :
  unique_ids plans -> unique_ids (filter g plans).
Proof.
  unfold unique_ids. induction plans as [|p rest IH]; simpl; [auto|].
  intros Hnd. inversion Hnd as [|x l Hnotin Hrest]; subst.
  destruct (g p); [|auto]. simpl. constructor; [|auto].
  intros Hin. apply Hnotin. apply in_map_iff in Hin as (a & Ha & Hin).
  apply in_map_iff. exists a. split; [assumption|].
  now apply filter_In in Hin as [Hin _].
Qed.

(** X3: In every collection the routes can produce, ids are unique and a
    user has at most one plan that is [active] or [paused]. *)
Theorem reachable_one_live_plan (plans : list Plan) (uid : nat) :
  reachable plans ->
  NoDup (map _id plans) /\
  (List.length (filter (live uid) plans) <= 1)%nat.
Proof.
  intros Hr. destruct (reachable_coherent _ Hr) as (Hid & Hlive & _).
  split; [exact Hid|].
  pose proof (filter_unique (live uid) _ Hid) as Hnd.
  destruct (filter (live uid) plans) as [|a [|b rest]] eqn:E; simpl; try lia.
  exfalso.
  assert (Ha : In a (filter (live uid) plans)) by (rewrite E; simpl; auto).
  assert (Hb : In b (filter (live uid) plans)) by (rewrite E; simpl; auto).
  apply filter_In in Ha as [Ha La]. apply filter_In in Hb as [Hb Lb].
  pose proof (Hlive a b uid Ha Hb La Lb) as Hsame.
  unfold unique_ids in Hnd. simpl in Hnd.
  inversion Hnd as [|x l Hnotin _]; subst. apply Hnotin. simpl. auto.
Qed.

Lemma reachable_one_live_plan_witness :
  NoDup (map _id resumed) /\ (List.length (filter (live alice) resumed) <= 1)%nat.
Proof.
  exact (reachable_one_live_plan resumed alice resumed_reachable).
Defined.

(** The live plan of a user is the one [findOne] answers with. *)
Lemma live_plan_found (plans : list Plan) (uid : nat) (p x : Plan) :
  coherent plans -> In p plans -> live uid p = true ->
  In x plans -> live uid x = true -> x = p.
Proof.
  intros (Hid & Hlive & _) Hp Lp Hx Lx.
  apply (unique_ids_same plans); auto. exact (Hlive _ _ uid Hx Hp Lx Lp).
Qed.

Lemma find_the_one (q : Plan -> bool) (plans : list Plan) (p : Plan) :
  In p plans -> q p = true ->
  (forall x, In x plans -> q x = true -> x = p) ->
  findOne q plans = Some p.
Proof.
  intros Hin Hq Huniq. unfold findOne.
  destruct (find q plans) as [x|] eqn:E.
  - apply find_some in E as [Hx Qx]. now rewrite (Huniq x Hx Qx).
  - pose proof (find_none _ _ E p Hin). congruence.
Qed.

Lemma find_nothing (q : Plan -> bool) (plans : list Plan) :
  (forall x, In x plans -> q x = false) -> findOne q plans = None.
Proof.
  intros H. unfold findOne. destruct (find q plans) as [x|] eqn:E; [|reflexivity].
  apply find_some in E as [Hx Qx]. rewrite (H x Hx) in Qx. discriminate.
Qed.

Lemma with_status_live (uid : nat) (s : Status) (x : Plan) :
  with_status uid s x = true -> s <> completed -> live uid x = true.
Proof.
  intros H Hs. apply with_status_true in H as [Hu Hst]. apply live_true.
  split; [assumption|]. rewrite Hst. destruct s; auto. contradiction.
Qed.

(** What a successful pause stores. *)
Lemma put_pause_effect (plans : list Plan) (uid : nat) (t : Z) (p : Plan) :
  reachable plans -> findOne (with_status uid active) plans = Some p ->
  put_pause plans uid t
  = (replace_plan (set_pausedAt (Some t) (set_status paused p)) plans,
     Json 200 (set_pausedAt (Some t) (set_status paused p))).
Proof.
  intros Hr Hf. unfold put_pause. rewrite Hf. cbv zeta.
  assert (Hok : plan_ok p).
  { pose proof (reachable_ok _ Hr) as Hall. rewrite Forall_forall in Hall.
    apply Hall. apply (findOne_Some _ _ _ Hf). }
  destruct Hok as [Hw Hn].
  assert (Hstale : set_currentWeek
                     (calculateCurrentWeek (set_pausedAt (Some t) (set_status paused p)) t)
                     (set_pausedAt (Some t) (set_status paused p))
                   = set_pausedAt (Some t) (set_status paused p)) by reflexivity.
  rewrite Hstale. rewrite save_valid by (simpl; exact Hn). reflexivity.
Qed.

(** X4: Pausing at [t] and resuming at [t'] changes one thing in the
    collection: the whole days between [t] and [t'] are added to the
    [pausedDays] of the plan.  Resumed within a day, the collection is
    what it was before the pause. *)
Theorem pause_then_resume (plans : list Plan) (uid : nat) (t t' : Z) (p : Plan) :
  reachable plans ->
  findOne (with_status uid active) plans = Some p ->
  fst (put_resume (fst (put_pause plans uid t)) uid t')
  = replace_plan (set_pausedDays (pausedDays p + (t' - t) / 86400000) p) plans /\
  (0 <= t' - t < 86400000 ->
   fst (put_resume (fst (put_pause plans uid t)) uid t') = plans).
Proof.
  intros Hr Hf.
  pose proof (reachable_coherent _ Hr) as Hc.
  pose proof (findOne_Some _ _ _ Hf) as [Hin Hq].
  pose proof (proj1 (with_status_true _ _ _) Hq) as [Hu Hs].
  assert (Hok : plan_ok p).
  { pose proof (reachable_ok _ Hr) as Hall. rewrite Forall_forall in Hall. auto. }
  assert (Hnone : pausedAt p = None).
  { destruct Hc as (_ & _ & Hmark). rewrite Forall_forall in Hmark.
    specialize (Hmark p Hin). unfold well_marked in Hmark. now rewrite Hs in Hmark. }
  rewrite (put_pause_effect _ _ t _ Hr Hf). simpl fst.
  set (q := set_pausedAt (Some t) (set_status paused p)).
  assert (Hr1 : reachable (replace_plan q plans)).
  { apply (reachable_step plans); [assumption|].
    pose proof (step_pause uid t plans) as Hst.
    now rewrite (put_pause_effect _ _ t _ Hr Hf) in Hst. }
  pose proof (reachable_coherent _ Hr1) as Hc1.
  assert (Hq1 : In q (replace_plan q plans)) by (apply (In_replace_plan_new p); auto).
  assert (Hfq : findOne (with_status uid paused) (replace_plan q plans) = Some q).
  { apply find_the_one; [assumption | apply with_status_true; split; [exact Hu | reflexivity] |].
    intros x Hx Qx. apply (live_plan_found _ uid q x Hc1); auto.
    - apply live_true. simpl. auto.
    - apply (with_status_live _ paused); [assumption | discriminate]. }
  assert (Hstep :
    fst (put_resume (replace_plan q plans) uid t')
    = replace_plan (set_pausedDays (pausedDays p + (t' - t) / 86400000) p) plans).
  { unfold put_resume. rewrite Hfq. cbv zeta.
    rewrite save_valid by (simpl; apply Hok). simpl fst.
    rewrite replace_plan_twice by reflexivity.
    f_equal. destruct p; simpl in *. subst. reflexivity. }
  split; [exact Hstep|].
  intros Hday. rewrite Hstep.
  rewrite Z.div_small by lia.
  assert (Hp0 : set_pausedDays (pausedDays p + 0) p = p)
    by (destruct p; simpl; now rewrite Z.add_0_r).
  rewrite Hp0. apply replace_plan_same.
  intros x Hx Hid. exact (unique_ids_same plans x p (proj1 Hc) Hx Hin Hid).
Qed.

Lemma pause_then_resume_witness :
  fst (put_resume (fst (put_pause created alice (jan2024 10))) alice (jan2024 10 + 3600000))
  = created.
Proof.
  apply (proj2 (pause_then_resume created alice (jan2024 10) (jan2024 10 + 3600000)
                  (mkPlan 1 alice (jan2024 1) 4 1 active None 0 (mkGoals None 10000 4) no_diet)
                  created_reachable eq_refl)).
  vm_compute; split; [discriminate | reflexivity].
Defined.

(** *** One user cannot touch the plans of another *)

Lemma others_app_own (uid : nat) (plans : list Plan) (p : Plan) :
  userId p = uid -> others uid (plans ++ [p]) = others uid plans.
Proof.
  intros Hu. unfold others. rewrite filter_app. simpl.
  rewrite Hu, Nat.eqb_refl. simpl. apply app_nil_r.
Qed.

Lemma others_replace_own (uid : nat) (p' : Plan) (plans : list Plan) :
  userId p' = uid ->
  (forall q, In q plans -> _id q = _id p' -> userId q = uid) ->
  others uid (replace_plan p' plans) = others uid plans.
Proof.
  intros Hu. unfold others, replace_plan.
  induction plans as [|q rest IH]; simpl; [reflexivity|].
  intros H. rewrite IH by (intros; apply H; auto).
  destruct (_id q =? _id p')%nat eqn:E; [|reflexivity].
  apply Nat.eqb_eq in E.
  rewrite (H q (or_introl eq_refl) E), Hu, Nat.eqb_refl. reflexivity.
Qed.

Lemma others_remove_own (uid : nat) (q : Plan -> bool) (plans : list Plan) :
  (forall x, q x = true -> userId x = uid) ->
  others uid (remove_first q plans) = others uid plans.
Proof.
  intros Hq. unfold others.
  induction plans as [|p rest IH]; simpl; [reflexivity|].
  destruct (q p) eqn:E.
  - now rewrite (Hq p E), Nat.eqb_refl.
  - simpl. now rewrite IH.
Qed.

Lemma others_saved (uid : nat) (plans : list Plan) (p p' : Plan) (r : Response Plan) :
  unique_ids plans -> In p plans -> userId p = uid ->
  _id p' = _id p -> userId p' = uid ->
  others uid (fst (match save p' plans with
                   | inl e => (plans, NextError e)
                   | inr plans' => (plans', r)
                   end))
  = others uid plans.
Proof.
  intros Hid Hin Hu Hsame Hu'.
  destruct (save p' plans) as [e|plans'] eqn:E; simpl; [reflexivity|].
  apply save_inr in E as [_ ->]. apply others_replace_own; [assumption|].
  intros q Hq Hq'. rewrite Hsame in Hq'.
  now rewrite (unique_ids_same plans q p Hid Hq Hin Hq').
Qed.

(** X5: A request of user [uid] to any of the plan routes leaves the plans
    of all other users as they are, in place and in order. *)
Theorem other_users_untouched (plans : list Plan) (uid : nat) :
  reachable plans ->
  (forall b, others uid (fst (post_plan plans uid b)) = others uid plans) /\
  (forall now, others uid (fst (get_plan plans uid now)) = others uid plans) /\
  (forall now, others uid (fst (put_pause plans uid now)) = others uid plans) /\
  (forall now, others uid (fst (put_resume plans uid now)) = others uid plans) /\
  (forall id b now, others uid (fst (put_plan plans uid id b now)) = others uid plans) /\
  (forall id, others uid (fst (delete_plan plans uid id)) = others uid plans).
Proof.
  intros Hr. destruct (reachable_coherent _ Hr) as (Hid & _ & _).
  repeat match goal with |- _ /\ _ => split end.
  - intros b. unfold post_plan.
    destruct (findOne (live uid) plans); [reflexivity|].
    destruct (Plan_create plans uid b) as [e|p] eqn:E; simpl; [reflexivity|].
    apply Plan_create_inr in E as (start & n & _ & _ & _ & _ & ->).
    now apply others_app_own.
  - intros now. now rewrite get_plan_stores_nothing.
  - intros now. unfold put_pause.
    destruct (findOne (with_status uid active) plans) as [p|] eqn:E; [|reflexivity].
    cbv zeta. apply findOne_Some in E as [Hin Hq].
    apply with_status_true in Hq as [Hu _].
    now apply (others_saved uid plans p).
  - intros now. unfold put_resume.
    destruct (findOne (with_status uid paused) plans) as [p|] eqn:E; [|reflexivity].
    cbv zeta. apply findOne_Some in E as [Hin Hq].
    apply with_status_true in Hq as [Hu _].
    now apply (others_saved uid plans p).
  - intros id b now. unfold put_plan.
    destruct (findOne (owned id uid) plans) as [p|] eqn:E; [|reflexivity].
    cbv zeta. apply findOne_Some in E as [Hin Hq].
    apply owned_true in Hq as [_ Hu].
    apply (others_saved uid plans p); auto;
      destruct (u_dietPlan b); destruct (u_goals b);
        destruct (u_numberOfWeeks b) as [n|]; simpl; auto;
      match goal with |- context [if ?c then _ else _] => destruct c end; auto.
  - intros id. unfold delete_plan.
    destruct (findOne (owned id uid) plans); simpl; [|reflexivity].
    apply others_remove_own. intros x Hx. now apply owned_true in Hx.
Qed.

Lemma other_users_untouched_witness :
  others 8%nat (fst (put_pause created 8%nat (jan2024 3))) = others 8%nat created.
Proof.
  exact (proj1 (proj2 (proj2 (other_users_untouched created 8%nat created_reachable)))
               (jan2024 3)).
Defined.

(** X6: The routes that take a plan id answer its owner and nobody else:
    for the plan of another user they answer 404 and store nothing. *)
Theorem plan_by_id_is_private (plans : list Plan) (uid : nat) (p : Plan)
    (b : UpdateBody) (now : Z) :
  reachable plans -> In p plans ->
  get_plan_by_id plans (userId p) (_id p) now = Json 200 (plan_view p now) /\
  (userId p <> uid ->
   get_plan_by_id plans uid (_id p) now = Failure 404 "Plan not found" /\
   put_plan plans uid (_id p) b now = (plans, Failure 404 "Plan not found") /\
   delete_plan plans uid (_id p) = (plans, Failure 404 "Plan not found")).
Proof.
  intros Hr Hin. destruct (reachable_coherent _ Hr) as (Hid & _ & _).
  split.
  - unfold get_plan_by_id.
    rewrite (find_the_one _ plans p); auto.
    + apply owned_true; auto.
    + intros x Hx Hq. apply owned_true in Hq as [Hq _].
      exact (unique_ids_same plans x p Hid Hx Hin Hq).
  - intros Hne.
    assert (Hnone : findOne (owned (_id p) uid) plans = None).
    { apply find_nothing. intros x Hx.
      destruct (owned (_id p) uid x) eqn:E; [|reflexivity].
      apply owned_true in E as [E1 E2].
      rewrite (unique_ids_same plans x p Hid Hx Hin E1) in E2. contradiction. }
    unfold get_plan_by_id, put_plan, delete_plan. rewrite Hnone. auto.
Qed.

Lemma plan_by_id_is_private_witness :
  get_plan_by_id created 8%nat 1%nat (jan2024 3) = Failure 404 "Plan not found" /\
  put_plan created 8%nat 1%nat (mkUpdateBody None (Some 9) None) (jan2024 3)
  = (created, Failure 404 "Plan not found") /\
  delete_plan created 8%nat 1%nat = (created, Failure 404 "Plan not found").
Proof.
  apply (proj2 (plan_by_id_is_private created 8%nat
                  (mkPlan 1 alice (jan2024 1) 4 1 active None 0 (mkGoals None 10000 4) no_diet)
                  (mkUpdateBody None (Some 9) None) (jan2024 3) created_reachable
                  (or_introl eq_refl))).
  vm_compute; discriminate.
Defined.

(** *** Requests in a row *)

(** X7: After a pause succeeded, a second pause finds nothing to pause; after
    a resume succeeded, a second resume finds nothing to resume.  Both
    answer 404 and store nothing. *)
Theorem second_pause_or_resume (plans plans1 : list Plan) (uid : nat)
    (t t' : Z) (v : Plan) :
  reachable plans ->
  (put_pause plans uid t = (plans1, Json 200 v) ->
   put_pause plans1 uid t' = (plans1, Failure 404 "No active plan to pause")) /\
  (put_resume plans uid t = (plans1, Json 200 v) ->
   put_resume plans1 uid t' = (plans1, Failure 404 "No paused plan to resume")).
Proof.
  intros Hr. split; intros H.
  - assert (Hr1 : reachable plans1).
    { apply (reachable_step plans); [assumption|].
      pose proof (step_pause uid t plans) as Hst. now rewrite H in Hst. }
    pose proof (reachable_coherent _ Hr1) as Hc1.
    unfold put_pause in H.
    destruct (findOne (with_status uid active) plans) as [p|] eqn:E; [|discriminate].
    cbv zeta in H.
    destruct (save _ plans) as [e|saved] eqn:Es; [discriminate|].
    apply save_inr in Es as [_ ->]. injection H as <- _.
    apply findOne_Some in E as [Hin Hq]. apply with_status_true in Hq as [Hu Hs].
    set (q := set_currentWeek _ _) in *.
    assert (Hq1 : In q (replace_plan q plans)) by (apply (In_replace_plan_new p); auto).
    assert (Lq : live uid q = true) by (apply live_true; simpl; auto).
    unfold put_pause. rewrite find_nothing; [reflexivity|].
    intros x Hx. destruct (with_status uid active x) eqn:Ex; [|reflexivity].
    assert (x = q).
    { apply (live_plan_found _ uid q x Hc1); auto.
      apply (with_status_live _ active); [assumption | discriminate]. }
    subst x. apply with_status_true in Ex as [_ Ex]. discriminate.
  - assert (Hr1 : reachable plans1).
    { apply (reachable_step plans); [assumption|].
      pose proof (step_resume uid t plans) as Hst. now rewrite H in Hst. }
    pose proof (reachable_coherent _ Hr1) as Hc1.
    unfold put_resume in H.
    destruct (findOne (with_status uid paused) plans) as [p|] eqn:E; [|discriminate].
    cbv zeta in H.
    destruct (save _ plans) as [e|saved] eqn:Es; [discriminate|].
    apply save_inr in Es as [_ ->]. injection H as <- _.
    apply findOne_Some in E as [Hin Hq]. apply with_status_true in Hq as [Hu Hs].
    set (q := set_pausedAt None _) in *.
    assert (Hq1 : In q (replace_plan q plans)) by (apply (In_replace_plan_new p); auto).
    assert (Lq : live uid q = true) by (apply live_true; simpl; auto).
    unfold put_resume. rewrite find_nothing; [reflexivity|].
    intros x Hx. destruct (with_status uid paused x) eqn:Ex; [|reflexivity].
    assert (x = q).
    { apply (live_plan_found _ uid q x Hc1); auto.
      apply (with_status_live _ paused); [assumption | discriminate]. }
    subst x. apply with_status_true in Ex as [_ Ex]. discriminate.
Qed.

Lemma second_pause_or_resume_witness :
  put_pause during_pause alice (jan2024 11)
  = (during_pause, Failure 404 "No active plan to pause").
Proof.
  apply (proj1 (second_pause_or_resume created during_pause alice (jan2024 10) (jan2024 11)
                  (mkPlan 1 alice (jan2024 1) 4 1 paused (Some (jan2024 10)) 0
                          (mkGoals None 10000 4) no_diet)
                  created_reachable)).
  reflexivity.
Defined.

Lemma post_plan_created (plans : list Plan) (uid : nat) (b : CreateBody)
    (start n : Z) :
  findOne (live uid) plans = None ->
  c_startDate b = Some start -> c_numberOfWeeks b = Some n -> 1 <= n <= 52 ->
  diet_ok (c_dietPlan b) ->
  post_plan plans uid b
  = (plans ++ [mkPlan (fresh_id plans) uid start n 1 active None 0
                      (goals_of_body (c_goals b)) (orElse (c_dietPlan b) no_diet)],
     Json 201 (mkPlan (fresh_id plans) uid start n 1 active None 0
                      (goals_of_body (c_goals b)) (orElse (c_dietPlan b) no_diet))).
Proof.
  intros Hnone Hs Hn [Hlo Hhi] Hdiet. unfold post_plan, Plan_create.
  rewrite Hnone, Hs, Hn.
  destruct (n <? 1) eqn:E1; [apply Z.ltb_lt in E1; lia|].
  destruct (52 <? n) eqn:E2; [apply Z.ltb_lt in E2; lia|].
  unfold diet_ok in Hdiet. now rewrite Hdiet.
Qed.

Lemma remove_first_gone (q : Plan -> bool) (plans : list Plan) (p : Plan) :
  unique_ids plans -> q p = true ->
  (forall x, In x plans -> q x = true -> x = p) ->
  ~ In p (remove_first q plans).
Proof.
  unfold unique_ids. induction plans as [|a rest IH]; simpl; [auto|].
  intros Hnd Hq Huniq. inversion Hnd as [|x l Hnotin Hrest]; subst.
  destruct (q a) eqn:E.
  - rewrite (Huniq a (or_introl eq_refl) E) in Hnotin.
    intros Hin. apply Hnotin. now apply in_map.
  - intros [-> | Hin]; [congruence|].
    revert Hin. apply IH; auto.
Qed.

(** X8: Cancelling frees the slot: once a user has deleted the plan that was
    [active] or [paused], that plan is gone from the collection and a
    new plan whose body passes the validators (start date, length
    between 1 and 52, and a [dietPlan] that is absent or valid) is
    accepted. *)
Theorem delete_then_create (plans : list Plan) (uid : nat) (p : Plan)
    (b : CreateBody) (start n : Z) :
  reachable plans ->
  findOne (live uid) plans = Some p ->
  c_startDate b = Some start -> c_numberOfWeeks b = Some n -> 1 <= n <= 52 ->
  diet_ok (c_dietPlan b) ->
  exists plans1 plan,
    delete_plan plans uid (_id p) = (plans1, Json 200 tt) /\
    ~ In p plans1 /\
    post_plan plans1 uid b = (plans1 ++ [plan], Json 201 plan) /\
    userId plan = uid /\ status plan = active /\ numberOfWeeks plan = n.
Proof.
  intros Hr Hf Hs Hn Hrange Hdiet.
  pose proof (reachable_coherent _ Hr) as Hc. pose proof Hc as (Hid & _ & _).
  apply findOne_Some in Hf as [Hin Lp].
  pose proof (proj1 (live_true _ _) Lp) as [Hu _].
  assert (Huniq : forall x, In x plans -> owned (_id p) uid x = true -> x = p).
  { intros x Hx Hq. apply owned_true in Hq as [Hq _].
    exact (unique_ids_same plans x p Hid Hx Hin Hq). }
  assert (Hown : owned (_id p) uid p = true) by (apply owned_true; auto).
  assert (Hfo : findOne (owned (_id p) uid) plans = Some p)
    by (apply find_the_one; auto).
  assert (Hgone : ~ In p (remove_first (owned (_id p) uid) plans))
    by (apply remove_first_gone; auto).
  exists (remove_first (owned (_id p) uid) plans),
         (mkPlan (fresh_id (remove_first (owned (_id p) uid) plans)) uid start n 1
                 active None 0 (goals_of_body (c_goals b))
                 (orElse (c_dietPlan b) no_diet)).
  split; [unfold delete_plan; rewrite Hfo; reflexivity|].
  split; [exact Hgone|].
  split; [|simpl; auto].
  apply (post_plan_created _ _ _ start n); auto.
  apply find_nothing. intros x Hx.
  destruct (live uid x) eqn:Lx; [|reflexivity].
  exfalso. apply Hgone.
  pose proof (live_plan_found plans uid p x Hc Hin Lp (In_remove_first _ _ _ Hx) Lx) as Hxp.
  rewrite Hxp in Hx. exact Hx.
Qed.

Lemma delete_then_create_witness :
  exists plans1 plan,
    delete_plan during_pause alice 1%nat = (plans1, Json 200 tt) /\
    ~ In (mkPlan 1 alice (jan2024 1) 4 1 paused (Some (jan2024 10)) 0
                 (mkGoals None 10000 4) no_diet) plans1 /\
    post_plan plans1 alice four_weeks_with_diet = (plans1 ++ [plan], Json 201 plan) /\
    userId plan = alice /\ status plan = active /\ numberOfWeeks plan = 4.
Proof.
  apply (delete_then_create during_pause alice
           (mkPlan 1 alice (jan2024 1) 4 1 paused (Some (jan2024 10)) 0
                   (mkGoals None 10000 4) no_diet)
           four_weeks_with_diet (jan2024 1) 4 during_pause_reachable); try reflexivity.
  vm_compute; split; discriminate.
Defined.

(** *** Progress summary *)

(** X9: The progress summary of a stored plan counts at least one day and at
    most the days of the weeks reached so far, so never more than the
    [totalDays = 7 * totalWeeks] of the plan. *)
Theorem progress_days_bounded (getDay : Z -> Z) (plans : list Plan) (uid : nat)
    (now : Z) (pr : Progress) :
  reachable plans -> 0 <= getDay now <= 6 ->
  get_progress getDay plans uid now = Json 200 pr ->
  1 <= pr_currentWeek pr <= pr_totalWeeks pr /\
  pr_totalDays pr = 7 * pr_totalWeeks pr /\
  7 * (pr_currentWeek pr - 1) < pr_daysCompleted pr <= 7 * pr_currentWeek pr /\
  pr_daysCompleted pr <= pr_totalDays pr.
Proof.
  intros Hr Hday. unfold get_progress.
  destruct (findOne (live uid) plans) as [p|] eqn:E; [|discriminate].
  cbv zeta. intros H; injection H as <-.
  cbn [pr_currentWeek pr_totalWeeks pr_daysCompleted pr_totalDays js_or].
  apply findOne_Some in E as [Hin _].
  pose proof (reachable_ok _ Hr) as Hall. rewrite Forall_forall in Hall.
  pose proof (plan_ok_week_in_range p now (Hall p Hin)) as Hw.
  destruct (getDay now =? 0) eqn:E0;
    [apply Z.eqb_eq in E0 | apply Z.eqb_neq in E0]; lia.
Qed.

Lemma progress_days_bounded_witness :
  exists pr,
    get_progress utc_day created alice (jan2024 10) = Json 200 pr /\
    pr_daysCompleted pr = 10 /\ pr_daysCompleted pr <= pr_totalDays pr.
Proof.
  exists (mkProgress 2 4 10 28 active).
  split; [reflexivity|]. split; [reflexivity|].
  apply (progress_days_bounded utc_day created alice (jan2024 10) _ created_reachable).
  - vm_compute; split; discriminate.
  - reflexivity.
Defined.

(** *** Update, repeated *)

Lemma merge_goals_twice (g : Goals) (b : GoalsBody) :
  merge_goals (merge_goals g b) b = merge_goals g b.
Proof.
  unfold merge_goals; simpl.
  destruct (g_targetWeight b), (g_dailyStepsGoal b), (g_weeklyWorkoutGoal b); reflexivity.
Qed.

Lemma put_plan_updated (plans : list Plan) (uid id : nat) (b : UpdateBody)
    (now : Z) (p : Plan) :
  findOne (owned id uid) plans = Some p ->
  put_plan plans uid id b now
  = match save (updated b now p) plans with
    | inl e => (plans, NextError e)
    | inr plans' => (plans', Json 200 (plan_view (updated b now p) now))
    end.
Proof. intros Hf. unfold put_plan. now rewrite Hf. Qed.

Lemma updated_ids (b : UpdateBody) (now : Z) (p : Plan) :
  _id (updated b now p) = _id p /\ userId (updated b now p) = userId p.
Proof.
  unfold updated. destruct (u_dietPlan b); destruct (u_goals b);
        destruct (u_numberOfWeeks b) as [n|]; simpl; auto;
    match goal with |- context [if ?c then _ else _] => destruct c end; auto.
Qed.

Lemma updated_twice (b : UpdateBody) (now : Z) (p : Plan) :
  1 <= currentWeek p -> 1 <= numberOfWeeks p ->
  updated b now (updated b now p) = updated b now p.
Proof.
  intros Hw Hn. destruct p as [i u sd n0 cw st pa pd g dp].
  cbn [currentWeek numberOfWeeks] in Hw, Hn.
  unfold updated at 2 3. unfold calculateCurrentWeek.
  destruct (u_dietPlan b) as [d|] eqn:Ed;
    destruct (u_goals b) as [gb|] eqn:Eg; destruct (u_numberOfWeeks b) as [n|] eqn:En;
    destruct st;
    cbn [status currentWeek numberOfWeeks startDate pausedDays goals dietPlan
         set_goals set_numberOfWeeks set_dietPlan];
    try match goal with
        | |- context [negb (n =? 0) && (?w <=? n)] =>
            destruct (negb (n =? 0) && (w <=? n)) eqn:E
        end;
    unfold updated, calculateCurrentWeek; rewrite Ed, Eg, En;
    cbn [status currentWeek numberOfWeeks startDate pausedDays goals dietPlan
         set_goals set_numberOfWeeks set_dietPlan];
    rewrite ?merge_goals_twice; rewrite ?E; try reflexivity;
    apply andb_true_iff in E as [E0 E1]; rewrite E0; apply Z.leb_le in E1;
    match goal with
    | |- context [?w <=? n] =>
        replace (w <=? n) with true by (symmetry; apply Z.leb_le; lia)
    end; reflexivity.
Qed.

(** X10: [PUT /api/plan/:id] can be repeated: at the same clock the same
    request, sent again, gets the same answer and leaves the collection
    as the first one left it. *)
Theorem put_plan_repeatable (plans plans1 : list Plan) (uid id : nat)
    (b : UpdateBody) (now : Z) (r : Response Plan) :
  reachable plans ->
  put_plan plans uid id b now = (plans1, r) ->
  put_plan plans1 uid id b now = (plans1, r).
Proof.
  intros Hr H.
  destruct (findOne (owned id uid) plans) as [p|] eqn:Hf.
  - rewrite (put_plan_updated _ _ _ _ _ _ Hf) in H.
    destruct (save (updated b now p) plans) as [e|saved] eqn:Es.
    + injection H as <- <-. now rewrite (put_plan_updated _ _ _ _ _ _ Hf), Es.
    + injection H as <- <-. apply save_inr in Es as [Hn ->].
      destruct (updated_ids b now p) as [Hid Hu].
      pose proof (findOne_replace_plan _ _ _ _ _ Hf Hid Hu) as Hf'.
      rewrite (put_plan_updated _ _ _ _ _ _ Hf').
      assert (Hok : plan_ok p).
      { pose proof (reachable_ok _ Hr) as Hall. rewrite Forall_forall in Hall.
        apply Hall. apply (findOne_Some _ _ _ Hf). }
      destruct Hok as [Hw [Hp _]].
      rewrite updated_twice by lia.
      rewrite save_valid by exact Hn.
      now rewrite replace_plan_twice.
  - unfold put_plan in *. rewrite Hf in H. injection H as <- <-. now rewrite Hf.
Qed.

Lemma put_plan_repeatable_witness :
  put_plan (fst (put_plan created alice 1%nat (mkUpdateBody None (Some 3) None) (jan2024 9)))
           alice 1%nat (mkUpdateBody None (Some 3) None) (jan2024 9)
  = put_plan created alice 1%nat (mkUpdateBody None (Some 3) None) (jan2024 9).
Proof.
  apply (put_plan_repeatable created _ alice 1%nat (mkUpdateBody None (Some 3) None)
           (jan2024 9) _ created_reachable).
  reflexivity.
Defined.

End PlanInvariants.

(** * Properties of the steps routes *)

Module StepsFacts.
Import PlanModel PlanRoutes Scenarios StepsRoutes StepsMore.

Lemma find_app_last (q : Steps -> bool) (entries : list Steps) (e : Steps) :
  find q entries = None -> q e = true -> find q (entries ++ [e]) = Some e.
Proof.
  induction entries as [|a rest IH]; simpl; intros Hn He.
  - now rewrite He.
  - destruct (q a); [discriminate | auto].
Qed.

(** X11: What [POST /api/steps] answered with is what the reads of that day
    answer with afterwards. *)
Theorem posted_steps_are_read_back (startOfDay : Z -> Z) (plans : list Plan)
    (entries entries' : list Steps) (uid : nat) (body : StepsBody) (now : Z)
    (e : Steps) :
  post_steps startOfDay plans entries uid body now = (entries', Json 201 e) ->
  get_by_date startOfDay entries' uid (orElse (date body) now) = Json 200 (Some e) /\
  (date body = None ->
   get_today startOfDay plans entries' uid now = Json 200 (Logged e)).
Proof.
  intros H.
  assert (Hf : find (on_date uid (startOfDay (orElse (date body) now))) entries' = Some e).
  { unfold post_steps in H. cbv zeta in H.
    destruct (find (on_date uid (startOfDay (orElse (date body) now))) entries)
      as [old|] eqn:Ef.
    - destruct (validate _ _ _ _) as [err|c]; [discriminate|].
      injection H as <- <-.
      apply (LogFacts.find_replace_steps _ _ _ old); auto.
    - destruct (validate _ _ _ _) as [err|c]; [discriminate|].
      injection H as <- <-.
      apply find_app_last; [assumption|].
      unfold on_date; simpl. now rewrite Nat.eqb_refl, Z.eqb_refl. }
  split.
  - unfold get_by_date. now rewrite Hf.
  - intros Hd. rewrite Hd in Hf. simpl in Hf.
    unfold get_today. cbv zeta. now rewrite Hf.
Qed.

Lemma posted_steps_are_read_back_witness :
  get_by_date utc_midnight
    [mkSteps 1 alice (Some 1%nat) (jan2024 9) 2 5000 10000 None None]
    alice (jan2024 9 + 3600000)
  = Json 200 (Some (mkSteps 1 alice (Some 1%nat) (jan2024 9) 2 5000 10000 None None)).
Proof.
  apply (proj1 (posted_steps_are_read_back utc_midnight created []
                  [mkSteps 1 alice (Some 1%nat) (jan2024 9) 2 5000 10000 None None]
                  alice
                  (mkStepsBody (Some 5000) None None None None None)
                  (jan2024 9 + 3600000)
                  (mkSteps 1 alice (Some 1%nat) (jan2024 9) 2 5000 10000 None None)
                  eq_refl)).
Defined.

(** *** One entry per user and day *)

Lemma fresh_steps_id_above (entries : list Steps) (e : Steps) :
  In e entries -> (s_id e < fresh_steps_id entries)%nat.
Proof.
  unfold fresh_steps_id. induction entries as [|q rest IH]; simpl; [intros []|].
  intros [-> | Hin]; [lia | specialize (IH Hin); lia].
Qed.

Lemma steps_ids_same (entries : list Steps) (a b : Steps) :
  NoDup (map s_id entries) -> In a entries -> In b entries ->
  s_id a = s_id b -> a = b.
Proof.
  induction entries as [|q rest IH]; simpl; [intros _ []|].
  intros Hnd Ha Hb Hid. inversion Hnd as [|x l Hnotin Hrest]; subst.
  destruct Ha as [-> | Ha], Hb as [-> | Hb]; auto.
  - exfalso. apply Hnotin. rewrite Hid. now apply in_map.
  - exfalso. apply Hnotin. rewrite <- Hid. now apply in_map.
Qed.

Lemma replace_steps_map {A : Type} (f : Steps -> A) (e' : Steps) (entries : list Steps) :
  (forall q, In q entries -> s_id q = s_id e' -> f q = f e') ->
  map f (replace_steps e' entries) = map f entries.
Proof.
  unfold replace_steps. induction entries as [|q rest IH]; simpl; [reflexivity|].
  intros H. rewrite IH by (intros; apply H; auto).
  destruct (s_id q =? s_id e')%nat eqn:E; [|reflexivity].
  apply Nat.eqb_eq in E. now rewrite (H q (or_introl eq_refl) E).
Qed.

Lemma update_first_map {A : Type} (f : Steps -> A) (q : Steps -> bool)
    (g : Steps -> Steps) (entries : list Steps) :
  (forall e, f (g e) = f e) ->
  map f (update_first q g entries) = map f entries.
Proof.
  intros H. induction entries as [|e rest IH]; simpl; [reflexivity|].
  destruct (q e); simpl; [now rewrite H | now rewrite IH].
Qed.

Lemma In_delete_first (q : Steps -> bool) (a : Steps) (entries : list Steps) :
  In a (delete_first q entries) -> In a entries.
Proof.
  induction entries as [|e rest IH]; simpl; [intros []|].
  destruct (q e); [auto|]. intros [-> | H]; auto.
Qed.

Lemma delete_first_NoDup {A : Type} (f : Steps -> A) (q : Steps -> bool)
    (entries : list Steps) :
  NoDup (map f entries) -> NoDup (map f (delete_first q entries)).
Proof.
  induction entries as [|e rest IH]; simpl; [auto|].
  intros Hnd. inversion Hnd as [|x l Hnotin Hrest]; subst.
  destruct (q e); [assumption|]. simpl. constructor; [|auto].
  intros Hin. apply Hnotin. apply in_map_iff in Hin as (a & Ha & Hin).
  apply in_map_iff. exists a. split; [assumption|].
  now apply In_delete_first in Hin.
Qed.

(** X12: The steps routes never store two entries of one user for one day,
    nor two entries with one id: whatever the request, a collection
    without such pairs stays without them. *)
Theorem steps_one_per_day (startOfDay : Z -> Z) (plans : list Plan)
    (entries : list Steps) (uid : nat) :
  one_per_day entries ->
  (forall body now, one_per_day (fst (post_steps startOfDay plans entries uid body now))) /\
  (forall id u, one_per_day (fst (put_steps entries uid id u))) /\
  (forall id, one_per_day (fst (delete_steps entries uid id))).
Proof.
  intros [Hid Hday]. repeat match goal with |- _ /\ _ => split end.
  - intros body now. unfold post_steps. cbv zeta.
    destruct (find (on_date uid (startOfDay (orElse (date body) now))) entries)
      as [old|] eqn:Ef.
    + destruct (validate _ _ _ _) as [err|c]; simpl; [split; assumption|].
      apply find_some in Ef as [Hin _].
      split.
      * rewrite replace_steps_map; [assumption|].
        intros q _ Hq. exact Hq.
      * rewrite replace_steps_map; [assumption|].
        intros q Hq Hsame. simpl in Hsame.
        now rewrite (steps_ids_same entries q old Hid Hq Hin Hsame).
    + destruct (validate _ _ _ _) as [err|c]; simpl; [split; assumption|].
      pose proof (find_none _ _ Ef) as Hnone.
      split; rewrite map_app; simpl; apply NoDup_app; try assumption;
        try (constructor; [intros [] | constructor]).
      * intros x Hx [<- | []]. apply in_map_iff in Hx as (a & Ha & Hin).
        pose proof (fresh_steps_id_above _ _ Hin). lia.
      * intros x Hx [<- | []]. apply in_map_iff in Hx as (a & Ha & Hin).
        specialize (Hnone a Hin). unfold on_date in Hnone.
        unfold day_key in Ha. simpl in Ha. injection Ha as Hu Hd.
        now rewrite Hu, Hd, Nat.eqb_refl, Z.eqb_refl in Hnone.
  - intros id u. unfold put_steps.
    destruct (validate_update u); simpl; [split; assumption|].
    destruct (find (owned_steps id uid) entries); simpl; [|split; assumption].
    split; rewrite update_first_map; auto.
  - intros id. unfold delete_steps.
    destruct (find (owned_steps id uid) entries); simpl; [|split; assumption].
    split; now apply delete_first_NoDup.
Qed.

Lemma steps_one_per_day_witness :
  one_per_day (fst (post_steps utc_midnight created [logged] alice
                      (mkStepsBody (Some 9000) None None None (Some 1704279600000) None)
                      (jan2024 20))).
Proof.
  apply (proj1 (steps_one_per_day utc_midnight created [logged] alice
                  (conj (NoDup_cons 1%nat (@in_nil nat 1%nat) (NoDup_nil nat))
                        (NoDup_cons (day_key logged) (@in_nil _ (day_key logged))
                                    (NoDup_nil _))))).
Defined.

(** *** Update by id *)

Lemma apply_update_twice (u : StepsUpdate) (e : Steps) :
  apply_update u (apply_update u e) = apply_update u e.
Proof.
  unfold apply_update; simpl.
  destruct (up_week u), (up_count u), (up_goal u), (up_distance u),
    (up_caloriesBurned u); reflexivity.
Qed.

Lemma find_update_first (q : Steps -> bool) (f : Steps -> Steps)
    (entries : list Steps) (e : Steps) :
  find q entries = Some e -> q (f e) = true ->
  find q (update_first q f entries) = Some (f e).
Proof.
  induction entries as [|a rest IH]; simpl; [discriminate|].
  destruct (q a) eqn:E; intros Hf Hq.
  - injection Hf as ->. simpl. now rewrite Hq.
  - simpl. rewrite E. auto.
Qed.

Lemma update_first_twice (q : Steps -> bool) (f : Steps -> Steps)
    (entries : list Steps) :
  (forall e, q e = true -> q (f e) = true /\ f (f e) = f e) ->
  update_first q f (update_first q f entries) = update_first q f entries.
Proof.
  intros H. induction entries as [|a rest IH]; simpl; [reflexivity|].
  destruct (q a) eqn:E; simpl.
  - destruct (H a E) as [-> ->]. reflexivity.
  - now rewrite E, IH.
Qed.

Lemma owned_steps_updated (id uid : nat) (u : StepsUpdate) (e : Steps) :
  owned_steps id uid (apply_update u e) = owned_steps id uid e.
Proof. reflexivity. Qed.

(** X13: [PUT /api/steps/:id] can be repeated: the same request sent again
    gets the same answer and changes nothing more.  It keeps the id, the
    owner, the plan and the date of the entry and the size of the
    collection, and it stores the week of the body as it is. *)
Theorem put_steps_repeatable (entries entries' : list Steps) (uid id : nat)
    (u : StepsUpdate) (e' : Steps) :
  put_steps entries uid id u = (entries', Json 200 e') ->
  put_steps entries' uid id u = (entries', Json 200 e') /\
  List.length entries' = List.length entries /\
  exists e,
    find (owned_steps id uid) entries = Some e /\
    s_id e' = s_id e /\ s_userId e' = s_userId e /\
    s_planId e' = s_planId e /\ s_date e' = s_date e /\
    s_week e' = orElse (up_week u) (s_week e).
Proof.
  unfold put_steps.
  destruct (validate_update u) eqn:Ev; [discriminate|].
  destruct (find (owned_steps id uid) entries) as [e|] eqn:Ef; [|discriminate].
  intros H; injection H as <- <-.
  pose proof (find_some _ _ Ef) as [_ Hq].
  repeat split.
  - rewrite (find_update_first _ _ _ e Ef) by (now rewrite owned_steps_updated).
    rewrite apply_update_twice, update_first_twice; [reflexivity|].
    intros a Ha. now rewrite owned_steps_updated, apply_update_twice.
  - clear. induction entries as [|a rest IH]; simpl; [reflexivity|].
    destruct (owned_steps id uid a); simpl; auto.
  - exists e. repeat split.
Qed.

Lemma put_steps_repeatable_witness :
  put_steps [mkSteps 1 7 (Some 1%nat) 1704240000000 3 4000 10000 (Some 3) None] alice 1%nat
            (mkStepsUpdate None None None None (Some 3))
  = ([mkSteps 1 7 (Some 1%nat) 1704240000000 3 4000 10000 (Some 3) None],
     Json 200 (mkSteps 1 7 (Some 1%nat) 1704240000000 3 4000 10000 (Some 3) None)).
Proof.
  apply (proj1 (put_steps_repeatable [logged] _ alice 1%nat
                  (mkStepsUpdate None None None None (Some 3)) _ eq_refl)).
Defined.

(** X14: Update and delete by id answer the owner of the entry only: for the
    entry of another user they answer 404 and store nothing. *)
Theorem steps_by_id_is_private (entries : list Steps) (uid : nat) (e : Steps)
    (u : StepsUpdate) :
  NoDup (map s_id entries) -> In e entries -> s_userId e <> uid ->
  validate_update u = None ->
  put_steps entries uid (s_id e) u = (entries, Failure 404 "Steps entry not found") /\
  delete_steps entries uid (s_id e) = (entries, Failure 404 "Steps entry not found").
Proof.
  intros Hid Hin Hne Hv.
  assert (Hnone : find (owned_steps (s_id e) uid) entries = None).
  { destruct (find (owned_steps (s_id e) uid) entries) as [x|] eqn:E; [|reflexivity].
    apply find_some in E as [Hx Hq]. unfold owned_steps in Hq.
    apply andb_true_iff in Hq as [H1 H2].
    apply Nat.eqb_eq in H1, H2.
    rewrite (steps_ids_same entries x e Hid Hx Hin H1) in H2. contradiction. }
  unfold put_steps, delete_steps. now rewrite Hv, Hnone.
Qed.

Lemma steps_by_id_is_private_witness :
  put_steps [logged] 8%nat 1%nat (mkStepsUpdate (Some 1) None None None None)
  = ([logged], Failure 404 "Steps entry not found") /\
  delete_steps [logged] 8%nat 1%nat = ([logged], Failure 404 "Steps entry not found").
Proof.
  apply (steps_by_id_is_private [logged] 8%nat logged
           (mkStepsUpdate (Some 1) None None None None)).
  - constructor; [intros [] | constructor].
  - left; reflexivity.
  - vm_compute; discriminate.
  - reflexivity.
Defined.

End StepsFacts.

(** * Properties of the exercise routes *)

Module WorkoutFacts.
Import LogRoutes WorkoutRoutes.

Section Entries.

Variable P : Type.

Lemma entry_ids_same (entries : list (Entry P)) (a b : Entry P) :
  NoDup (map e_id entries) -> In a entries -> In b entries ->
  e_id a = e_id b -> a = b.
Proof.
  induction entries as [|q rest IH]; simpl; [intros _ []|].
  intros Hnd Ha Hb Hid. inversion Hnd as [|x l Hnotin Hrest]; subst.
  destruct Ha as [-> | Ha], Hb as [-> | Hb]; auto.
  - exfalso. apply Hnotin. rewrite Hid. now apply in_map.
  - exfalso. apply Hnotin. rewrite <- Hid. now apply in_map.
Qed.

Lemma replace_entry_same (e : Entry P) (entries : list (Entry P)) :
  (forall q, In q entries -> e_id q = e_id e -> q = e) ->
  replace_entry e entries = entries.
Proof.
  unfold replace_entry. induction entries as [|q rest IH]; simpl; [reflexivity|].
  intros H. rewrite IH by (intros; apply H; auto).
  destruct (e_id q =? e_id e)%nat eqn:E; [|reflexivity].
  apply Nat.eqb_eq in E. now rewrite (H q (or_introl eq_refl) E).
Qed.

Lemma replace_entry_twice (e e' : Entry P) (entries : list (Entry P)) :
  e_id e' = e_id e ->
  replace_entry e (replace_entry e' entries) = replace_entry e entries.
Proof.
  intros Hid. unfold replace_entry. rewrite map_map. apply map_ext.
  intros q. rewrite Hid.
  destruct (e_id q =? e_id e)%nat eqn:E; [|now rewrite E].
  now rewrite Hid, Nat.eqb_refl.
Qed.

Lemma find_replace_entry (id uid : nat) (entries : list (Entry P)) (e e' : Entry P) :
  find (owned_entry id uid) entries = Some e ->
  e_id e' = e_id e -> e_userId e' = e_userId e ->
  find (owned_entry id uid) (replace_entry e' entries) = Some e'.
Proof.
  intros Hf Hid Hu.
  assert (He' : owned_entry id uid e' = true).
  { apply find_some in Hf as [_ Ho]. unfold owned_entry in *. now rewrite Hid, Hu. }
  unfold replace_entry.
  induction entries as [|q rest IH]; simpl in *; [discriminate|].
  destruct (owned_entry id uid q) eqn:Eq.
  - injection Hf as ->. rewrite Hid, Nat.eqb_refl, He'. reflexivity.
  - destruct (e_id q =? e_id e')%nat.
    + now rewrite He'.
    + rewrite Eq. auto.
Qed.

End Entries.

Lemma set_exercises_back (w : Workout) (exs : list Exercise) :
  set_exercises (exercises (e_payload w)) (set_exercises exs w) = w.
Proof. destruct w as [i u p d k [n e du c no co]]. reflexivity. Qed.

Lemma totalVolume_snoc (w : Workout) (ex : Exercise) :
  totalVolume (set_exercises (exercises (e_payload w) ++ [ex]) w)
  = totalVolume w + ex_sets ex * ex_reps ex * js_or (ex_weight ex) 0.
Proof. unfold totalVolume. simpl. now rewrite fold_left_app. Qed.

Lemma js_or_Some_0 (x : Z) : js_or (Some x) 0 = x.
Proof. unfold js_or. destruct (x =? 0) eqn:E; [apply Z.eqb_eq in E; auto | reflexivity]. Qed.

(** What a successful [POST /api/workout/:id/exercise] does. *)
Lemma post_exercise_inv (trim : string -> string) (workouts workouts' : list Workout)
    (uid id : nat) (b : ExerciseBody) (w' : Workout) :
  post_exercise trim workouts uid id b = (workouts', Json 200 w') ->
  exists w ex,
    find (owned_entry id uid) workouts = Some w /\
    new_exercise trim (fresh_exercise_id workouts) b = Some ex /\
    w' = set_exercises (exercises (e_payload w) ++ [ex]) w /\
    workout_valid w' = true /\
    workouts' = replace_entry w' workouts.
Proof.
  unfold post_exercise.
  destruct (find (owned_entry id uid) workouts) as [w|]; [|discriminate].
  destruct (new_exercise trim (fresh_exercise_id workouts) b) as [ex|]; [|discriminate].
  cbv zeta. destruct (workout_valid _) eqn:Ev; [|discriminate].
  intros H; injection H as <- <-. exists w, ex. repeat split. exact Ev.
Qed.

(** X15: An added exercise is the last of the workout and raises
    [totalVolume] by its sets times its reps times its weight (0 when
    the body has none); sets and reps are at least 1. *)
Theorem exercise_adds_volume (trim : string -> string)
    (workouts workouts' : list Workout) (uid id : nat) (b : ExerciseBody)
    (w' : Workout) :
  post_exercise trim workouts uid id b = (workouts', Json 200 w') ->
  exists w sets reps,
    find (owned_entry id uid) workouts = Some w /\
    xb_sets b = Some sets /\ xb_reps b = Some reps /\
    1 <= sets /\ 1 <= reps /\
    List.length (exercises (e_payload w')) = S (List.length (exercises (e_payload w))) /\
    totalVolume w' = totalVolume w + sets * reps * PlanRoutes.orElse (xb_weight b) 0.
Proof.
  intros H. apply post_exercise_inv in H as (w & ex & Hf & Hn & -> & Hv & _).
  unfold new_exercise in Hn.
  destruct (xb_name b) as [name|]; [|discriminate].
  destruct (xb_sets b) as [sets|]; [|discriminate].
  destruct (xb_reps b) as [reps|]; [|discriminate].
  injection Hn as <-.
  exists w, sets, reps.
  unfold workout_valid in Hv. simpl in Hv.
  rewrite forallb_app in Hv. simpl in Hv. unfold exercise_valid in Hv. simpl in Hv.
  repeat (apply andb_true_iff in Hv; destruct Hv as [Hv ?]).
  repeat match goal with
         | H : _ && _ = true |- _ => apply andb_true_iff in H; destruct H
         end.
  repeat match goal with
         | H : (1 <=? _) = true |- _ => apply Z.leb_le in H
         end.
  repeat split; auto.
  - simpl. rewrite length_app. simpl. lia.
  - rewrite totalVolume_snoc. cbn [ex_sets ex_reps ex_weight].
    now rewrite js_or_Some_0.
Qed.

Lemma exercise_adds_volume_witness :
  exists w sets reps,
    find (owned_entry 1%nat 7%nat) [leg_day] = Some w /\
    Some 3 = Some sets /\ Some 8 = Some reps /\
    1 <= sets /\ 1 <= reps /\
    List.length (exercises (e_payload
      (set_exercises (exercises (e_payload leg_day)
                      ++ [mkExercise 2 "Lunge" 3 8 (Some 20) "kg" None]) leg_day)))
    = S (List.length (exercises (e_payload w))) /\
    totalVolume (set_exercises (exercises (e_payload leg_day)
                                ++ [mkExercise 2 "Lunge" 3 8 (Some 20) "kg" None]) leg_day)
    = totalVolume w + sets * reps * PlanRoutes.orElse (Some 20) 0.
Proof.
  exact (exercise_adds_volume no_trim [leg_day] _ 7%nat 1%nat
           (mkExerciseBody (Some "Lunge"%string) (Some 3) (Some 8) (Some 20) None None)
           _ eq_refl).
Defined.

Lemma fresh_exercise_id_above (workouts : list Workout) (w : Workout) (x : Exercise) :
  In w workouts -> In x (exercises (e_payload w)) ->
  (ex_id x < fresh_exercise_id workouts)%nat.
Proof.
  intros Hw Hx. unfold fresh_exercise_id.
  assert (Hin : In x (flat_map (fun w => exercises (e_payload w)) workouts)).
  { apply in_flat_map. exists w. auto. }
  revert Hin. generalize (flat_map (fun w => exercises (e_payload w)) workouts).
  induction l as [|a rest IH]; simpl; [intros []|].
  intros [-> | Hin]; [lia | specialize (IH Hin); lia].
Qed.

Lemma filter_keeps_all (xid : nat) (exs : list Exercise) :
  (forall x, In x exs -> ex_id x <> xid) ->
  filter (fun ex => negb (ex_id ex =? xid)%nat) exs = exs.
Proof.
  induction exs as [|a rest IH]; simpl; [reflexivity|].
  intros H. rewrite IH by (intros; apply H; auto).
  destruct (ex_id a =? xid)%nat eqn:E; [|reflexivity].
  apply Nat.eqb_eq in E. destruct (H a (or_introl eq_refl) E).
Qed.

Lemma set_exercises_same (w : Workout) :
  set_exercises (exercises (e_payload w)) w = w.
Proof. destruct w as [i u p d k [n e du c no co]]. reflexivity. Qed.

(** X16: Removing an exercise id that the workout does not have is no error:
    the answer is 200 with the workout as it was, and nothing changes in
    the collection. *)
Theorem remove_unknown_exercise (workouts : list Workout) (uid id xid : nat)
    (w : Workout) :
  NoDup (map e_id workouts) ->
  find (owned_entry id uid) workouts = Some w ->
  workout_valid w = true ->
  (forall x, In x (exercises (e_payload w)) -> ex_id x <> xid) ->
  delete_exercise workouts uid id xid = (workouts, Json 200 w).
Proof.
  intros Hid Hf Hv Hnone. unfold delete_exercise. rewrite Hf. cbv zeta.
  rewrite filter_keeps_all by assumption.
  rewrite set_exercises_same, Hv.
  rewrite replace_entry_same; [reflexivity|].
  intros q Hq Hsame. apply find_some in Hf as [Hin _].
  exact (entry_ids_same _ workouts q w Hid Hq Hin Hsame).
Qed.

Lemma remove_unknown_exercise_witness :
  delete_exercise [leg_day] 7%nat 1%nat 5%nat = ([leg_day], Json 200 leg_day).
Proof.
  apply remove_unknown_exercise.
  - constructor; [intros [] | constructor].
  - reflexivity.
  - reflexivity.
  - intros x [<- | []]. discriminate.
Defined.

(** X17: Adding an exercise and then removing it by its id gives back the
    workout and the collection there were before. *)
Theorem add_then_remove_exercise (trim : string -> string)
    (workouts workouts' : list Workout) (uid id : nat) (b : ExerciseBody)
    (w w' : Workout) :
  NoDup (map e_id workouts) ->
  find (owned_entry id uid) workouts = Some w ->
  workout_valid w = true ->
  post_exercise trim workouts uid id b = (workouts', Json 200 w') ->
  exists x,
    exercises (e_payload w') = exercises (e_payload w) ++ [x] /\
    delete_exercise workouts' uid id (ex_id x) = (workouts, Json 200 w).
Proof.
  intros Hid Hf Hv H.
  apply post_exercise_inv in H as (w0 & ex & Hf0 & Hn & -> & Hv' & ->).
  rewrite Hf in Hf0. injection Hf0 as <-.
  exists ex. split; [reflexivity|].
  pose proof (find_some _ _ Hf) as [Hin _].
  assert (Hex : ex_id ex = fresh_exercise_id workouts).
  { unfold new_exercise in Hn.
    destruct (xb_name b), (xb_sets b), (xb_reps b); try discriminate.
    injection Hn as <-. reflexivity. }
  unfold delete_exercise.
  rewrite (find_replace_entry _ id uid workouts w) by auto.
  cbv zeta.
  assert (Hfilter :
    filter (fun e => negb (ex_id e =? ex_id ex)%nat)
           (exercises (e_payload (set_exercises (exercises (e_payload w) ++ [ex]) w)))
    = exercises (e_payload w)).
  { simpl. rewrite filter_app. simpl. rewrite Nat.eqb_refl. simpl.
    rewrite app_nil_r. apply filter_keeps_all.
    intros x Hx. pose proof (fresh_exercise_id_above workouts w x Hin Hx). lia. }
  rewrite Hfilter, set_exercises_back, Hv.
  rewrite replace_entry_twice by reflexivity.
  rewrite replace_entry_same; [reflexivity|].
  intros q Hq Hsame. exact (entry_ids_same _ workouts q w Hid Hq Hin Hsame).
Qed.

Lemma add_then_remove_exercise_witness :
  exists x,
    exercises (e_payload
      (set_exercises (exercises (e_payload leg_day)
                      ++ [mkExercise 2 "Lunge" 3 8 (Some 20) "kg" None]) leg_day))
    = exercises (e_payload leg_day) ++ [x] /\
    delete_exercise
      [set_exercises (exercises (e_payload leg_day)
                      ++ [mkExercise 2 "Lunge" 3 8 (Some 20) "kg" None]) leg_day]
      7%nat 1%nat (ex_id x)
    = ([leg_day], Json 200 leg_day).
Proof.
  apply (add_then_remove_exercise no_trim [leg_day] _ 7%nat 1%nat
           (mkExerciseBody (Some "Lunge"%string) (Some 3) (Some 8) (Some 20) None None)
           leg_day _).
  - constructor; [intros [] | constructor].
  - reflexivity.
  - reflexivity.
  - reflexivity.
Defined.

End WorkoutFacts.

(** * Properties of the meals of a day *)

Module MealFacts.
Import LogRoutes MealRoutes.

Lemma lookup_group_push (t k : string) (m : Meal) (groups : list (string * list Meal)) :
  lookup_type t (group_push k m groups)
  = if String.eqb k t
    then Some (PlanRoutes.orElse (lookup_type t groups) [] ++ [m])
    else lookup_type t groups.
Proof.
  induction groups as [|[k' ms] rest IH]; simpl.
  - destruct (String.eqb k t); reflexivity.
  - destruct (String.eqb k' k) eqn:E1; simpl.
    + apply String.eqb_eq in E1. subst k'.
      destruct (String.eqb k t); reflexivity.
    + destruct (String.eqb k' t) eqn:E2.
      * apply String.eqb_eq in E2. subst k'.
        rewrite String.eqb_sym, E1. reflexivity.
      * exact IH.
Qed.

Lemma lookup_fold (t : string) (meals : list Meal) (groups : list (string * list Meal)) :
  lookup_type t
    (fold_left (fun g meal => group_push (mealType (e_payload meal)) meal g) meals groups)
  = grown (lookup_type t groups) (of_type t meals).
Proof.
  revert groups. induction meals as [|m rest IH]; intros groups; simpl.
  - unfold grown. destruct (lookup_type t groups); simpl; [now rewrite app_nil_r | reflexivity].
  - rewrite IH, lookup_group_push.
    destruct (String.eqb (mealType (e_payload m)) t); [|reflexivity].
    unfold grown. destruct (lookup_type t groups) as [l|]; simpl.
    + rewrite <- app_assoc. simpl. destruct (of_type t rest); reflexivity.
    + destruct (of_type t rest); reflexivity.
Qed.

Lemma fold_plus {A : Type} (g : A -> Z) (l : list A) (a : Z) :
  fold_left (fun s i => s + g i) l a = a + sum (map g l).
Proof.
  revert a. induction l as [|x rest IH]; intros a; simpl; [lia|].
  rewrite IH. lia.
Qed.

Lemma fold_add_item (its : list MealItem) (acc : Totals) :
  fold_left add_item its acc
  = mkTotals (t_calories acc + sum (map (fun i => js_or (it_calories i) 0) its))
             (t_protein acc + sum (map (fun i => js_or (it_protein i) 0) its))
             (t_carbs acc + sum (map (fun i => js_or (it_carbs i) 0) its))
             (t_fats acc + sum (map (fun i => js_or (it_fats i) 0) its)).
Proof.
  revert acc. induction its as [|i rest IH]; intros acc; simpl.
  - destruct acc; simpl. f_equal; lia.
  - rewrite IH. unfold add_item; simpl. f_equal; lia.
Qed.

Lemma totalMacros_sums (m : Meal) :
  totalMacros m
  = mkMacros (sum (map (fun i => js_or (it_protein i) 0) (items (e_payload m))))
             (sum (map (fun i => js_or (it_carbs i) 0) (items (e_payload m))))
             (sum (map (fun i => js_or (it_fats i) 0) (items (e_payload m)))).
Proof.
  unfold totalMacros.
  assert (H : forall its acc,
    fold_left (fun totals item =>
                 mkMacros (protein totals + js_or (it_protein item) 0)
                          (carbs totals + js_or (it_carbs item) 0)
                          (fats totals + js_or (it_fats item) 0)) its acc
    = mkMacros (protein acc + sum (map (fun i => js_or (it_protein i) 0) its))
               (carbs acc + sum (map (fun i => js_or (it_carbs i) 0) its))
               (fats acc + sum (map (fun i => js_or (it_fats i) 0) its))).
  { induction its as [|i rest IH]; intros acc; simpl.
    - destruct acc; simpl. f_equal; lia.
    - rewrite IH. simpl. f_equal; lia. }
  now rewrite H.
Qed.

Lemma dailyTotals_from (meals : list Meal) (acc : Totals) :
  fold_left (fun totals meal => fold_left add_item (items (e_payload meal)) totals)
            meals acc
  = mkTotals (t_calories acc + sum (map totalCalories meals))
             (t_protein acc + sum (map (fun m => protein (totalMacros m)) meals))
             (t_carbs acc + sum (map (fun m => carbs (totalMacros m)) meals))
             (t_fats acc + sum (map (fun m => fats (totalMacros m)) meals)).
Proof.
  revert acc. induction meals as [|m rest IH]; intros acc; simpl.
  - destruct acc; simpl. f_equal; lia.
  - rewrite IH, fold_add_item, totalMacros_sums. simpl.
    unfold totalCalories. rewrite fold_plus. f_equal; lia.
Qed.

(** X18: The day of meals that [GET /api/meals/date/:date] answers with holds
    exactly the meals of the caller dated within the day, each as often
    as it is stored and in stored order: it is the stored list with the
    other meals struck out.  Under each meal type that occurs it lists
    the meals of that type in the same order, and it has no key for a
    type that does not occur. *)
Theorem meals_of_a_day_grouped (startOfDay endOfDay : Z -> Z) (meals : list Meal)
    (uid : nat) (d : Z) :
  exists day,
    get_meals_by_date startOfDay endOfDay meals uid d = Json 200 day /\
    d_meals day
    = filter (fun m => (e_userId m =? uid)%nat
                       && (startOfDay d <=? e_date m)
                       && (e_date m <=? endOfDay (startOfDay d)))
             meals /\
    (forall m, In m (d_meals day) <->
               In m meals /\ e_userId m = uid /\
               startOfDay d <= e_date m <= endOfDay (startOfDay d)) /\
    (forall t, lookup_type t (d_mealsByType day) = non_empty (of_type t (d_meals day))).
Proof.
  eexists. split; [reflexivity|]. simpl. split; [reflexivity|]. split.
  - intros m. rewrite filter_In. unfold on_day.
    rewrite !andb_true_iff, Nat.eqb_eq, !Z.leb_le. tauto.
  - intros t. unfold mealsByType. rewrite lookup_fold. simpl.
    now destruct (of_type t _).
Qed.

(** X19: The daily totals of that answer are, for whole-number nutrient
    values, the sums of the virtuals [totalCalories] and [totalMacros]
    of its meals. *)
Theorem meals_of_a_day_totals (startOfDay endOfDay : Z -> Z) (meals : list Meal)
    (uid : nat) (d : Z) :
  exists day,
    get_meals_by_date startOfDay endOfDay meals uid d = Json 200 day /\
    t_calories (d_dailyTotals day) = sum (map totalCalories (d_meals day)) /\
    t_protein (d_dailyTotals day) = sum (map (fun m => protein (totalMacros m)) (d_meals day)) /\
    t_carbs (d_dailyTotals day) = sum (map (fun m => carbs (totalMacros m)) (d_meals day)) /\
    t_fats (d_dailyTotals day) = sum (map (fun m => fats (totalMacros m)) (d_meals day)).
Proof.
  eexists. split; [reflexivity|]. simpl.
  unfold dailyTotals. rewrite dailyTotals_from. simpl. repeat split.
Qed.

End MealFacts.

(** * Properties of the streak *)

Module AnalyticsFacts.
Import StepsRoutes AnalyticsRoutes.

Section Streak.

Variable startOfDay : Z -> Z.
Variable prevDay : Z -> Z.

Lemma streak_loop_bounds (entries : list Steps) (streak checkDate : Z) :
  streak <= streak_loop startOfDay prevDay entries streak checkDate
         <= streak + Z.of_nat (List.length entries).
Proof.
  revert streak checkDate. induction entries as [|e rest IH]; intros streak checkDate.
  - simpl. lia.
  - cbn [streak_loop List.length]. cbv zeta.
    destruct ((startOfDay (s_date e) =? checkDate) && (0 <? s_count e)).
    + specialize (IH (streak + 1) (prevDay checkDate)). lia.
    + destruct (startOfDay (s_date e) <? checkDate).
      * lia.
      * specialize (IH streak checkDate). lia.
Qed.

Lemma streak_loop_starts (entries : list Steps) (streak checkDate : Z) :
  streak < streak_loop startOfDay prevDay entries streak checkDate ->
  exists e, In e entries /\ startOfDay (s_date e) = checkDate /\ 0 < s_count e.
Proof.
  revert streak checkDate. induction entries as [|e rest IH]; intros streak checkDate.
  - simpl. lia.
  - cbn [streak_loop]. cbv zeta.
    destruct ((startOfDay (s_date e) =? checkDate) && (0 <? s_count e)) eqn:E.
    + intros _. apply andb_true_iff in E as [E1 E2].
      apply Z.eqb_eq in E1. apply Z.ltb_lt in E2.
      exists e. simpl. auto.
    + destruct (startOfDay (s_date e) <? checkDate); [lia|].
      intros H. destruct (IH _ _ H) as (x & Hx & Hd & Hc).
      exists x. simpl. auto.
Qed.

Lemma streak_loop_run (n : nat) (entries rest : list Steps) (streak checkDate : Z) :
  logged_run startOfDay prevDay n checkDate entries ->
  streak_loop startOfDay prevDay (entries ++ rest) streak checkDate
  = streak_loop startOfDay prevDay rest (streak + Z.of_nat n)
                (days_back prevDay n checkDate).
Proof.
  revert entries streak checkDate. induction n as [|k IH]; intros entries streak checkDate.
  - destruct entries; [|intros []]. intros _. simpl. now rewrite Z.add_0_r.
  - destruct entries as [|e more]; [intros []|].
    intros (Hd & Hc & Hrun).
    cbn [app streak_loop]. cbv zeta.
    rewrite Hd, Z.eqb_refl. apply Z.ltb_lt in Hc. rewrite Hc. simpl andb. cbv iota.
    rewrite (IH more (streak + 1) (prevDay checkDate) Hrun).
    cbn [days_back]. f_equal. lia.
Qed.

(** X20: The streak is between 0 and the number of entries looked at, and it
    is 0 unless one of them is dated today with a positive count. *)
Theorem streak_needs_today (recentActivity : list Steps) (now : Z) :
  0 <= streak_of startOfDay prevDay recentActivity now
    <= Z.of_nat (List.length recentActivity) /\
  (0 < streak_of startOfDay prevDay recentActivity now ->
   exists e, In e recentActivity /\
             startOfDay (s_date e) = startOfDay now /\ 0 < s_count e).
Proof.
  unfold streak_of. split.
  - pose proof (streak_loop_bounds recentActivity 0 (startOfDay now)). lia.
  - apply streak_loop_starts.
Qed.

(** X21: When the entries start with one positive entry for each of the [n]
    days that end today, the latest first, and what follows is nothing or
    an entry of an earlier day than the next one expected, the streak is
    [n]. *)
Theorem streak_counts_the_run (n : nat) (run rest : list Steps) (now : Z) :
  logged_run startOfDay prevDay n (startOfDay now) run ->
  (rest = [] \/
   exists e more, rest = e :: more /\
     startOfDay (s_date e) < days_back prevDay n (startOfDay now)) ->
  streak_of startOfDay prevDay (run ++ rest) now = Z.of_nat n.
Proof.
  intros Hrun Hrest. unfold streak_of.
  rewrite (streak_loop_run n run rest 0 _ Hrun).
  destruct Hrest as [-> | (e & more & -> & Hlt)]; [reflexivity|].
  cbn [streak_loop]. cbv zeta.
  assert (E1 : (startOfDay (s_date e) =? days_back prevDay n (startOfDay now)) = false)
    by (apply Z.eqb_neq; lia).
  assert (E2 : (startOfDay (s_date e) <? days_back prevDay n (startOfDay now)) = true)
    by (apply Z.ltb_lt; lia).
  now rewrite E1, E2.
Qed.

End Streak.

Lemma streak_needs_today_witness :
  exists e,
    In e [mkSteps 1 7 None (Scenarios.jan2024 9) 2 5000 10000 None None] /\
    utc_midnight (s_date e) = utc_midnight (Scenarios.jan2024 9 + 3600000) /\
    0 < s_count e.
Proof.
  apply (proj2 (streak_needs_today utc_midnight (fun d => d - 86400000)
                  [mkSteps 1 7 None (Scenarios.jan2024 9) 2 5000 10000 None None]
                  (Scenarios.jan2024 9 + 3600000))).
  vm_compute; reflexivity.
Defined.

Lemma streak_counts_the_run_witness :
  streak_of utc_midnight (fun d => d - 86400000)
    ([mkSteps 2 7 None (Scenarios.jan2024 9) 2 5000 10000 None None;
      mkSteps 1 7 None (Scenarios.jan2024 8) 2 7000 10000 None None]
     ++ [mkSteps 3 7 None (Scenarios.jan2024 5) 1 100 10000 None None])
    (Scenarios.jan2024 9 + 3600000)
  = Z.of_nat 2.
Proof.
  apply streak_counts_the_run.
  - vm_compute. repeat split.
  - right. eexists. eexists. split; [reflexivity|]. vm_compute; reflexivity.
Defined.

End AnalyticsFacts.
